(** * A shallow embedding of kubetest2-tester-gitremote, pkg/tester/tester.go

    The tester parses its flags into a [Tester] record, resolves the run
    directory, clones a git repository, assembles the ginkgo command line
    and runs it.  Every interaction with the outside (environment lookups,
    the clone, the subprocess, what it prints or logs, and how the process
    exits) is an event appended to a trace, and the
    answers the outside world gives are read from a [World] record. *)

From Stdlib Require Import String Ascii List ZArith Bool Lia.
Import ListNotations.
Open Scope string_scope.
Open Scope Z_scope.

(** ** Results of fallible operations *)

Inductive result (E A : Type) : Type :=
| Ok (a : A)
| Err (e : E).
Arguments Ok {E A} a.
Arguments Err {E A} e.

(** ** Go standard library helpers used by the tester *)

Definition digit_char (d : Z) : ascii := ascii_of_nat (48 + Z.to_nat d).

(** Decimal digits of a non-negative integer, most significant first
    (strconv's formatBits in base 10; "0" for 0). *)
Fixpoint utoa_aux (fuel : nat) (n : Z) (acc : string) : string :=
  match fuel with
  | O => acc
  | S f =>
      let acc' := String (digit_char (n mod 10)) acc in
      if n <? 10 then acc' else utoa_aux f (n / 10) acc'
  end.

Definition utoa (n : Z) : string := utoa_aux (S (Z.to_nat (Z.log2 n))) n "".

(** strconv.Itoa *)
Definition Itoa (n : Z) : string :=
  if n <? 0 then "-" ++ utoa (- n) else utoa n.

(** time.Duration is an int64 count of nanoseconds. *)
Definition Nanosecond : Z := 1.
Definition Microsecond : Z := 1000 * Nanosecond.
Definition Millisecond : Z := 1000 * Microsecond.
Definition Second : Z := 1000 * Millisecond.
Definition Minute : Z := 60 * Second.
Definition Hour : Z := 60 * Minute.

(** time's fmtFrac: the [prec] low decimal digits of [v] as a fraction,
    trailing zeros dropped, and [v] divided by 10^prec. *)
Fixpoint fmtFrac_aux (prec : nat) (v : Z) (print : bool) (acc : string)
  : bool * string * Z :=
  match prec with
  | O => (print, acc, v)
  | S p =>
      let d := v mod 10 in
      let print' := print || negb (d =? 0) in
      fmtFrac_aux p (v / 10) print' (if print' then String (digit_char d) acc else acc)
  end.

Definition fmtFrac (v : Z) (prec : nat) : string * Z :=
  let '(print, s, v') := fmtFrac_aux prec v false "" in
  ((if print then "." ++ s else s), v').

(** U+00B5 MICRO SIGN, two bytes in UTF-8. *)
Definition micro : string := String (ascii_of_nat 194) (String (ascii_of_nat 181) "").

(** time.Duration.String *)
Definition Duration_String (d : Z) : string :=
  let u := Z.abs d in
  let body :=
    if u <? Second then
      if u =? 0 then "0s"
      else
        let '(prec, unit) :=
          if u <? Microsecond then (0%nat, "ns")
          else if u <? Millisecond then (3%nat, micro ++ "s")
          else (6%nat, "ms") in
        let '(frac, u') := fmtFrac u prec in
        utoa u' ++ frac ++ unit
    else
      let '(frac, u1) := fmtFrac u 9 in
      let secs := utoa (u1 mod 60) ++ frac ++ "s" in
      let u2 := u1 / 60 in
      if 0 <? u2 then
        let mins := utoa (u2 mod 60) ++ "m" ++ secs in
        let u3 := u2 / 60 in
        if 0 <? u3 then utoa u3 ++ "h" ++ mins else mins
      else secs in
  if d <? 0 then "-" ++ body else body.

(** ** github.com/kballard/go-shellquote: Split

    The library works on runes, but every character it treats specially
    is ASCII and no byte of a multi-byte UTF-8 sequence is ASCII, so
    working byte by byte gives the same words. *)

Inductive sq_error : Type :=
| UnterminatedSingleQuoteError
| UnterminatedDoubleQuoteError
| UnterminatedEscapeError.

Definition singleChar : ascii := "'".
Definition doubleChar : ascii := ascii_of_nat 34.
Definition escapeChar : ascii := "\".
Definition newline : ascii := ascii_of_nat 10.
Definition tab : ascii := ascii_of_nat 9.

Definition is_splitChar (c : ascii) : bool :=
  (c =? " ")%char || (c =? newline)%char || (c =? tab)%char.

Definition is_doubleEscapeChar (c : ascii) : bool :=
  (c =? "$")%char || (c =? "`")%char || (c =? doubleChar)%char
  || (c =? newline)%char || (c =? escapeChar)%char.

(** The three labelled blocks of splitWord that loop back. *)
Inductive sq_mode : Type := Raw | Single | Double.

(** splitWord: returns the word (buffer contents) and the remainder. *)
Fixpoint splitWord (m : sq_mode) (buf : list ascii) (input : list ascii)
  : result sq_error (list ascii * list ascii) :=
  match m, input with
  | Raw, [] => Ok (buf, [])
  | Raw, c :: cur =>
      if (c =? singleChar)%char then splitWord Single buf cur
      else if (c =? doubleChar)%char then splitWord Double buf cur
      else if (c =? escapeChar)%char then
        match cur with
        | [] => Err UnterminatedEscapeError
        | c2 :: cur' =>
            if (c2 =? newline)%char then splitWord Raw buf cur'
            else splitWord Raw (buf ++ [c2]) cur'
        end
      else if is_splitChar c then Ok (buf, cur)
      else splitWord Raw (buf ++ [c]) cur
  | Single, [] => Err UnterminatedSingleQuoteError
  | Single, c :: cur =>
      if (c =? singleChar)%char then splitWord Raw buf cur
      else splitWord Single (buf ++ [c]) cur
  | Double, [] => Err UnterminatedDoubleQuoteError
  | Double, c :: cur =>
      if (c =? doubleChar)%char then splitWord Raw buf cur
      else if (c =? escapeChar)%char then
        match cur with
        | [] => Err UnterminatedDoubleQuoteError
        | c2 :: cur' =>
            if is_doubleEscapeChar c2 then
              if (c2 =? newline)%char then splitWord Double buf cur'
              else splitWord Double (buf ++ [c2]) cur'
            else splitWord Double (buf ++ [c; c2]) cur'
        end
      else splitWord Double (buf ++ [c]) cur
  end.

(** The loop of Split.  Each round consumes at least one byte, so
    [length input] rounds always suffice. *)
Fixpoint split_loop (fuel : nat) (input : list ascii)
  : result sq_error (list string) :=
  match fuel with
  | O => Ok []
  | S f =>
      match input with
      | [] => Ok []
      | c :: rest =>
          if is_splitChar c then split_loop f rest
          else
            let word :=
              match splitWord Raw [] input with
              | Err e => Err e
              | Ok (w, rest') =>
                  match split_loop f rest' with
                  | Err e => Err e
                  | Ok ws => Ok (string_of_list_ascii w :: ws)
                  end
              end in
            if (c =? escapeChar)%char then
              match rest with
              | [] => Err UnterminatedEscapeError
              | c2 :: rest2 => if (c2 =? newline)%char then split_loop f rest2 else word
              end
            else word
      end
  end.

Definition shellquote_Split (s : string) : result sq_error (list string) :=
  let input := list_ascii_of_string s in
  split_loop (length input) input.


(** ** strconv.ParseInt(s, 0, 64) and strconv.ParseBool *)

(** strconv's lower: [c | ('x' - 'X')]. *)
Definition lower (c : ascii) : ascii := ascii_of_nat (Nat.lor (nat_of_ascii c) 32).

Definition is_dec_digit (c : ascii) : bool :=
  (48 <=? nat_of_ascii c)%nat && (nat_of_ascii c <=? 57)%nat.

Definition is_hex_letter (c : ascii) : bool :=
  (97 <=? nat_of_ascii (lower c))%nat && (nat_of_ascii (lower c) <=? 102)%nat.

(** The digit value ParseUint gives a byte, if it is a digit or letter. *)
Definition digit_value (c : ascii) : option Z :=
  if is_dec_digit c then Some (Z.of_nat (nat_of_ascii c) - 48)
  else if (97 <=? nat_of_ascii (lower c))%nat && (nat_of_ascii (lower c) <=? 122)%nat
  then Some (Z.of_nat (nat_of_ascii (lower c)) - 97 + 10)
  else None.

(** underscoreOK: what the last character seen was. *)
Inductive saw_class : Type := SawStart | SawDigit | SawUnderscore | SawOther.

Definition saw_eqb (a b : saw_class) : bool :=
  match a, b with
  | SawStart, SawStart | SawDigit, SawDigit
  | SawUnderscore, SawUnderscore | SawOther, SawOther => true
  | _, _ => false
  end.

Fixpoint underscore_loop (hex : bool) (saw : saw_class) (s : list ascii) : bool :=
  match s with
  | [] => negb (saw_eqb saw SawUnderscore)
  | c :: r =>
      if is_dec_digit c || (hex && is_hex_letter c) then underscore_loop hex SawDigit r
      else if (c =? "_")%char then
        if saw_eqb saw SawDigit then underscore_loop hex SawUnderscore r else false
      else if saw_eqb saw SawUnderscore then false
      else underscore_loop hex SawOther r
  end.

Definition underscoreOK (s0 : list ascii) : bool :=
  let s := match s0 with
           | c :: r => if (c =? "-")%char || (c =? "+")%char then r else s0
           | [] => s0
           end in
  match s with
  | c0 :: c1 :: r =>
      if (c0 =? "0")%char
         && ((lower c1 =? "b")%char || (lower c1 =? "o")%char || (lower c1 =? "x")%char)
      then underscore_loop (lower c1 =? "x")%char SawDigit r
      else underscore_loop false SawStart s
  | _ => underscore_loop false SawStart s
  end.

(** The digit loop of ParseUint; [None] is a syntax error.  Overflow is
    checked once at the end, which fails exactly when the loop would. *)
Fixpoint parse_digits (base : Z) (s : list ascii) (n : Z) (underscores : bool)
  : option (Z * bool) :=
  match s with
  | [] => Some (n, underscores)
  | c :: r =>
      if (c =? "_")%char then parse_digits base r n true
      else match digit_value c with
           | None => None
           | Some d => if base <=? d then None else parse_digits base r (n * base + d) underscores
           end
  end.

Definition maxUint64 : Z := 2 ^ 64 - 1.

(** strconv.ParseUint(s, 0, 64); [None] is a syntax or range error. *)
Definition ParseUint0 (s0 : list ascii) : option Z :=
  match s0 with
  | [] => None
  | c0 :: rest =>
      let '(base, s) :=
        if (c0 =? "0")%char then
          match rest with
          | c1 :: (_ :: _) as r =>
              if (lower c1 =? "b")%char then (2, r)
              else if (lower c1 =? "o")%char then (8, r)
              else if (lower c1 =? "x")%char then (16, r)
              else (8, rest)
          | _ => (8, rest)
          end
        else (10, s0) in
      match parse_digits base s 0 false with
      | None => None
      | Some (n, underscores) =>
          if maxUint64 <? n then None
          else if underscores && negb (underscoreOK s0) then None
          else Some n
      end
  end.

(** strconv.ParseInt(s, 0, 64) *)
Definition ParseInt0 (s : string) : option Z :=
  match list_ascii_of_string s with
  | [] => None
  | (c :: r) as l =>
      let '(neg, u) :=
        if (c =? "+")%char then (false, r)
        else if (c =? "-")%char then (true, r)
        else (false, l) in
      match ParseUint0 u with
      | None => None
      | Some un =>
          if negb neg && (2 ^ 63 <=? un) then None
          else if neg && (2 ^ 63 <? un) then None
          else Some (if neg then - un else un)
      end
  end.

(** strconv.ParseBool *)
Definition ParseBool (s : string) : option bool :=
  if existsb (String.eqb s) ["1"; "t"; "T"; "TRUE"; "true"; "True"] then Some true
  else if existsb (String.eqb s) ["0"; "f"; "F"; "FALSE"; "false"; "False"] then Some false
  else None.

(** ** The configuration record *)

Record Tester : Type := mkTester {
  FlakeAttempts : Z;
  GinkgoArgs : string;
  Parallel : Z;
  SkipRegex : string;
  FocusRegex : string;
  Timeout : Z;
  Env : list string;
  Repo : string;
  kubeconfigPath : string;
  runDir : string;
  e2eTestPath : string;
  ginkgoPath : string;
  kubectlPath : string
}.

(** Assignments [t.Field = v]. *)
Definition set_FlakeAttempts (v : Z) (t : Tester) : Tester :=
  let '(mkTester _ b c d e f g h i j k l m) := t in mkTester v b c d e f g h i j k l m.
Definition set_GinkgoArgs (v : string) (t : Tester) : Tester :=
  let '(mkTester a _ c d e f g h i j k l m) := t in mkTester a v c d e f g h i j k l m.
Definition set_Parallel (v : Z) (t : Tester) : Tester :=
  let '(mkTester a b _ d e f g h i j k l m) := t in mkTester a b v d e f g h i j k l m.
Definition set_SkipRegex (v : string) (t : Tester) : Tester :=
  let '(mkTester a b c _ e f g h i j k l m) := t in mkTester a b c v e f g h i j k l m.
Definition set_FocusRegex (v : string) (t : Tester) : Tester :=
  let '(mkTester a b c d _ f g h i j k l m) := t in mkTester a b c d v f g h i j k l m.
Definition set_Timeout (v : Z) (t : Tester) : Tester :=
  let '(mkTester a b c d e _ g h i j k l m) := t in mkTester a b c d e v g h i j k l m.
Definition set_Env (v : list string) (t : Tester) : Tester :=
  let '(mkTester a b c d e f _ h i j k l m) := t in mkTester a b c d e f v h i j k l m.
Definition set_Repo (v : string) (t : Tester) : Tester :=
  let '(mkTester a b c d e f g _ i j k l m) := t in mkTester a b c d e f g v i j k l m.
Definition set_kubeconfigPath (v : string) (t : Tester) : Tester :=
  let '(mkTester a b c d e f g h _ j k l m) := t in mkTester a b c d e f g h v j k l m.
Definition set_runDir (v : string) (t : Tester) : Tester :=
  let '(mkTester a b c d e f g h i _ k l m) := t in mkTester a b c d e f g h i v k l m.

(** NewDefaultTester; the other fields hold Go's zero values. *)
Definition NewDefaultTester : Tester :=
  {| FlakeAttempts := 1; GinkgoArgs := ""; Parallel := 1; SkipRegex := "";
     FocusRegex := ""; Timeout := 24 * Hour; Env := []; Repo := "";
     kubeconfigPath := ""; runDir := ""; e2eTestPath := ""; ginkgoPath := "";
     kubectlPath := "" |}.

(** ** The outside world and the trace of interactions *)

(** What the environment answers.  Go errors are kept as their messages. *)
Record World : Type := mkWorld {
  os_Args : list string;                                  (** os.Args *)
  LookupEnv : string -> option string;                    (** os.LookupEnv *)
  Getwd : result string string;                           (** os.Getwd: error or dir *)
  GitTag : string;                                        (** the package var GitTag *)
  WriteVersionToMetadata : string -> option string;       (** testers.WriteVersionToMetadata *)
  PlainClone : string -> string -> option string;         (** git.PlainClone(path, false, {URL}) *)
  artifacts_BaseDir : string;                             (** artifacts.BaseDir() *)
  cmd_Run : string -> list string -> list string -> option string
    (** exec.Command(name, args...) with SetEnv(env...), then Run() *)
}.

(** One flag of the go flag set flag.CommandLine, which Execute adds. *)
Record goflag : Type := mkGoflag {
  go_name : string;
  go_isBool : bool;
  go_set : string -> bool  (** whether Value.Set accepts the string *)
}.

(** What pflag's FlagSet.Parse reports. *)
Inductive parse_error : Type :=
| BadFlagSyntax (arg : string)
| UnknownFlag (name : string)
| UnknownShorthand (c : ascii)
| NeedsArgument (arg : string)
| InvalidArgument (value name : string)
| ErrHelp.

(** pflag's error handling mode of the flag set gpflag.Parse creates. *)
Inductive ErrorHandling : Type := ContinueOnError | ExitOnError.

(** The errors Execute returns, one per [return ... err] of the source. *)
Inductive error : Type :=
| ErrFlagRedefined                 (** pflag panics: a flag "help" or "h" exists *)
| ErrParseFlags (e : parse_error)  (** "failed to parse flags: %v" *)
| ErrExit (code : Z)               (** os.Exit inside pflag *)
| ErrRunDir (msg : string)         (** "failed to set run dir: %v" *)
| ErrMetadata (msg : string)       (** WriteVersionToMetadata's error *)
| ErrClone (msg : string)          (** "failed to clone repo: %v" *)
| ErrKubeconfigMissing             (** "kubeconfig path not provided" *)
| ErrGinkgoArgs (e : sq_error)     (** "error parsing --gingko-args: %v" *)
| ErrTestRun (msg : string).       (** cmd.Run()'s error *)

(** What the program does to the outside: calls, output and exits. *)
Inductive event : Type :=
| EvLookupEnv (key : string)
| EvGetwd
| EvWriteVersionToMetadata (tag : string)
| EvPlainClone (path url : string)
| EvInfoLog (name : string) (args : list string)
    (** klog.V(0).Infof("Running ginkgo test as %s %+v", name, args) *)
| EvRun (name : string) (args env : list string)
    (** exec.Command(name, args...), SetEnv(env...), Run(); [env] is the
        slice given to SetEnv, where [] stands for a nil and an empty slice
        alike *)
| EvPrintDefaults
| EvPrintError (e : parse_error)
| EvPrintRedefinition (shorthand : bool)
    (** pflag's AddFlag message before its panic: "... flag redefined:
        help", or, when [shorthand], "unable to redefine 'h' shorthand ..." *)
| EvPanic                    (** the runtime's "panic: ..." report *)
| EvFatal (e : error)        (** klog.Fatalf("failed to run ginkgo tester: %v", e) *)
| EvExit (code : Z).

(** The receiver [t *Tester] and the trace. *)
Record St : Type := mkSt { tester : Tester; trace : list event }.

(** A state and error monad over [St]. *)
Definition M (A : Type) : Type := St -> St * result error A.

Definition ret {A} (a : A) : M A := fun s => (s, Ok a).
Definition fail {A} (e : error) : M A := fun s => (s, Err e).
Definition bind {A B} (m : M A) (k : A -> M B) : M B :=
  fun s => match m s with
           | (s', Ok a) => k a s'
           | (s', Err e) => (s', Err e)
           end.

Notation "x <- c1 ;; c2" := (bind c1 (fun x => c2))
  (at level 61, c1 at next level, right associativity).
Notation "c1 ;; c2" := (bind c1 (fun _ => c2)) (at level 61, right associativity).

Definition get : M Tester := fun s => (s, Ok (tester s)).
Definition modify (f : Tester -> Tester) : M unit :=
  fun s => (mkSt (f (tester s)) (trace s), Ok tt).
Definition emit (e : event) : M unit :=
  fun s => (mkSt (tester s) (trace s ++ [e]), Ok tt).

Section Program.

Variable ParseDuration : string -> option Z.          (** time.ParseDuration *)
Variable readAsCSV : string -> option (list string).  (** sflags' string slice parser *)
Variable go_flags : list goflag.                       (** flag.CommandLine *)
Variable error_handling : ErrorHandling.
Variable w : World.

(** *** The flag set of Execute *)

(** Where a flag's value goes. *)
Inductive flag_target : Type :=
| TFlakeAttempts | TGinkgoArgs | TParallel | TSkipRegex | TFocusRegex
| TTimeout | TEnv | TRepo | TGo (g : goflag) | THelp.

Record pflag : Type := mkPflag {
  flag_name : string;
  flag_shorthand : option ascii;
  flag_target_of : flag_target
}.

(** The flags gpflag.Parse derives from the exported fields. *)
Definition tester_flags : list pflag :=
  [ mkPflag "flake-attempts" None TFlakeAttempts;
    mkPflag "ginkgo-args" None TGinkgoArgs;
    mkPflag "parallel" None TParallel;
    mkPflag "skip-regex" None TSkipRegex;
    mkPflag "focus-regex" None TFocusRegex;
    mkPflag "timeout" None TTimeout;
    mkPflag "env" None TEnv;
    mkPflag "repo" None TRepo ].

Definition defined (fs : list pflag) (name : string) : bool :=
  existsb (fun f => String.eqb (flag_name f) name) fs.

(** AddGoFlagSet: a go flag whose name is taken is skipped; a one-letter
    name is also its shorthand. *)
Definition go_pflags : list pflag :=
  map (fun g => mkPflag (go_name g)
                  (match list_ascii_of_string (go_name g) with
                   | [c] => Some c
                   | _ => None
                   end)
                  (TGo g))
      (filter (fun g => negb (defined tester_flags (go_name g))) go_flags).

(** BoolP("help", "h", ...) panics if the name or the shorthand is taken. *)
Definition help_redefined : bool :=
  defined (tester_flags ++ go_pflags) "help"
  || existsb (fun f => match flag_shorthand f with
                       | Some c => (c =? "h")%char
                       | None => false
                       end) go_pflags.

Definition flag_table : list pflag :=
  tester_flags ++ go_pflags ++ [mkPflag "help" (Some "h"%char) THelp].

Definition lookup_long (name : string) : option pflag :=
  find (fun f => String.eqb (flag_name f) name) flag_table.

Definition lookup_short (c : ascii) : option pflag :=
  find (fun f => match flag_shorthand f with
                 | Some c' => (c' =? c)%char
                 | None => false
                 end) flag_table.

Definition NoOptDefVal (f : pflag) : string :=
  match flag_target_of f with
  | THelp => "true"
  | TGo g => if go_isBool g then "true" else ""
  | _ => ""
  end.

(** The values the flags point to: the receiver, the help variable, and
    the [changed] bit of sflags' string slice value. *)
Record pstate : Type := mkPstate {
  ptester : Tester;
  phelp : bool;
  penv_changed : bool
}.

Definition with_tester (ps : pstate) (f : Tester -> Tester) : pstate :=
  mkPstate (f (ptester ps)) (phelp ps) (penv_changed ps).

(** Value.Set of the flag's value. *)
Definition set_value (ps : pstate) (tg : flag_target) (v : string) : option pstate :=
  match tg with
  | TFlakeAttempts => option_map (fun n => with_tester ps (set_FlakeAttempts n)) (ParseInt0 v)
  | TGinkgoArgs => Some (with_tester ps (set_GinkgoArgs v))
  | TParallel => option_map (fun n => with_tester ps (set_Parallel n)) (ParseInt0 v)
  | TSkipRegex => Some (with_tester ps (set_SkipRegex v))
  | TFocusRegex => Some (with_tester ps (set_FocusRegex v))
  | TTimeout => option_map (fun d => with_tester ps (set_Timeout d)) (ParseDuration v)
  | TEnv =>
      match readAsCSV v with
      | None => None
      | Some l =>
          let t := ptester ps in
          Some (mkPstate (set_Env (if penv_changed ps then Env t ++ l else l) t)
                         (phelp ps) true)
      end
  | TRepo => Some (with_tester ps (set_Repo v))
  | TGo g => if go_set g v then Some ps else None
  | THelp => option_map (fun b => mkPstate (ptester ps) b (penv_changed ps)) (ParseBool v)
  end.

(** FlagSet.Set as called by the parser. *)
Definition set_flag (ps : pstate) (f : pflag) (v : string) : result parse_error pstate :=
  match set_value ps (flag_target_of f) v with
  | Some ps' => Ok ps'
  | None => Err (InvalidArgument v (flag_name f))
  end.

(** [strings.SplitN(name, "=", 2)]. *)
Fixpoint split_eq (s : list ascii) : list ascii * option (list ascii) :=
  match s with
  | [] => ([], None)
  | c :: r =>
      if (c =? "=")%char then ([], Some r)
      else let '(a, b) := split_eq r in (c :: a, b)
  end.

(** parseSingleShortArg's test [len(shorthands) > 2 && shorthands[1] == '=']
    on the letters after the current one; the value is what follows '='. *)
Definition eq_value (rest : list ascii) : option (list ascii) :=
  match rest with
  | c :: ((_ :: _) as v) => if (c =? "=")%char then Some v else None
  | _ => None
  end.

(** The loop of parseShortArg over the letters of one argument, with
    parseSingleShortArg inlined.  [next] is the following argument; the
    boolean says whether it was taken as a value. *)
Fixpoint parse_shorts (shorthands : list ascii) (next : option string) (ps : pstate)
  : pstate * option parse_error * bool :=
  match shorthands with
  | [] => (ps, None, false)
  | c :: rest =>
      if String.prefix "test." (string_of_list_ascii shorthands) then (ps, None, false)
      else
        match lookup_short c with
        | None => (ps, Some (if (c =? "h")%char then ErrHelp else UnknownShorthand c), false)
        | Some f =>
            match eq_value rest with
            | Some v =>
                (* '-f=arg' *)
                match set_flag ps f (string_of_list_ascii v) with
                | Ok ps' => (ps', None, false)
                | Err e => (ps, Some e, false)
                end
            | None =>
                if negb (String.eqb (NoOptDefVal f) "") then
                  (* '-f' (arg was optional) *)
                  match set_flag ps f (NoOptDefVal f) with
                  | Ok ps' => parse_shorts rest next ps'
                  | Err e => (ps, Some e, false)
                  end
                else
                  match rest with
                  | _ :: _ =>
                      (* '-farg' *)
                      match set_flag ps f (string_of_list_ascii rest) with
                      | Ok ps' => (ps', None, false)
                      | Err e => (ps, Some e, false)
                      end
                  | [] =>
                      match next with
                      | Some v =>
                          (* '-f arg' *)
                          match set_flag ps f v with
                          | Ok ps' => (ps', None, true)
                          | Err e => (ps, Some e, false)
                          end
                      | None =>
                          (ps, Some (NeedsArgument (string_of_list_ascii ("-"%char :: shorthands))),
                           false)
                      end
                  end
            end
        end
  end.

(** How parseArgs reads one argument [s]: a positional argument (empty,
    "-", or not starting with '-'), the terminator "--", a long flag
    (the name after "--") or shorthand letters (after "-"). *)
Inductive arg_kind : Type :=
| ArgPositional
| ArgDashDash
| ArgLong (name : list ascii)
| ArgShort (shorthands : list ascii).

Definition classify (s : list ascii) : arg_kind :=
  match s with
  | c0 :: c1 :: rest =>
      if (c0 =? "-")%char then
        if (c1 =? "-")%char then
          match rest with
          | [] => ArgDashDash
          | _ :: _ => ArgLong rest
          end
        else ArgShort (c1 :: rest)
      else ArgPositional
  | _ => ArgPositional
  end.

(** parseLongArg's [len(name) == 0 || name[0] == '-' || name[0] == '=']. *)
Definition bad_name (name : list ascii) : bool :=
  match name with
  | [] => true
  | c :: _ => (c =? "-")%char || (c =? "=")%char
  end.

(** pflag's parseArgs, with parseLongArg inlined; interspersed positional
    arguments are skipped and "--" ends the flags. *)
Fixpoint parseArgs (args : list string) (ps : pstate) : pstate * option parse_error :=
  match args with
  | [] => (ps, None)
  | s :: rest =>
      match classify (list_ascii_of_string s) with
      | ArgPositional => parseArgs rest ps
      | ArgDashDash => (ps, None)
      | ArgLong name =>
          if bad_name name then (ps, Some (BadFlagSyntax s))
          else
            let nm := string_of_list_ascii (fst (split_eq name)) in
            match lookup_long nm with
            | None => (ps, Some (if String.eqb nm "help" then ErrHelp else UnknownFlag nm))
            | Some f =>
                match snd (split_eq name) with
                | Some v =>
                    (* '--flag=arg' *)
                    match set_flag ps f (string_of_list_ascii v) with
                    | Ok ps' => parseArgs rest ps'
                    | Err e => (ps, Some e)
                    end
                | None =>
                    if negb (String.eqb (NoOptDefVal f) "") then
                      (* '--flag' (arg was optional) *)
                      match set_flag ps f (NoOptDefVal f) with
                      | Ok ps' => parseArgs rest ps'
                      | Err e => (ps, Some e)
                      end
                    else
                      match rest with
                      | [] => (ps, Some (NeedsArgument s))
                      | v :: rest' =>
                          (* '--flag arg' *)
                          match set_flag ps f v with
                          | Ok ps' => parseArgs rest' ps'
                          | Err e => (ps, Some e)
                          end
                      end
                end
            end
      | ArgShort shorthands =>
          match parse_shorts shorthands (hd_error rest) ps with
          | (ps', Some e, _) => (ps', Some e)
          | (ps', None, false) => parseArgs rest ps'
          | (ps', None, true) =>
              match rest with
              | [] => (ps', None)
              | _ :: rest' => parseArgs rest' ps'
              end
          end
      end
  end.

(** FlagSet.Parse's reaction to an error of parseArgs. *)
Definition parse_failure {A} (e : parse_error) : M A :=
  match error_handling with
  | ContinueOnError => fail (ErrParseFlags e)
  | ExitOnError => emit (EvPrintError e);; emit (EvExit 2);; fail (ErrExit 2)
  end.

(** fs.Parse(os.Args): the flags write through to the receiver; the
    result is the value of [*help]. *)
Definition parse_flags : M bool :=
  t <- get;;
  let '(ps, perr) := parseArgs (os_Args w) (mkPstate t false false) in
  modify (fun _ => ptester ps);;
  match perr with
  | Some e => parse_failure e
  | None => ret (phelp ps)
  end.

(** *** The run *)

Definition lookup_env (key : string) : M (option string) :=
  emit (EvLookupEnv key);; ret (LookupEnv w key).

Definition initKubetest2Info : M unit :=
  d <- lookup_env "KUBETEST2_RUN_DIR";;
  match d with
  | Some dir => modify (set_runDir dir)
  | None =>
      emit EvGetwd;;
      match Getwd w with
      | Err msg => fail (ErrRunDir msg)
      | Ok dir => modify (set_runDir dir)
      end
  end.

Definition pretestSetup : M unit :=
  t <- get;;
  emit (EvPlainClone (runDir t) (Repo t));;
  match PlainClone w (runDir t) (Repo t) with
  | Some msg => fail (ErrClone msg)
  | None => ret tt
  end.

Definition Test : M unit :=
  emit (EvWriteVersionToMetadata (GitTag w));;
  match WriteVersionToMetadata w (GitTag w) with
  | Some msg => fail (ErrMetadata msg)
  | None =>
      pretestSetup;;
      t0 <- get;;
      (if String.eqb (kubeconfigPath t0) "" then
         k <- lookup_env "KUBECONFIG";;
         match k with
         | Some kubeconfig => modify (set_kubeconfigPath kubeconfig)
         | None => fail ErrKubeconfigMissing
         end
       else ret tt);;
      t <- get;;
      let e2eTestArgs :=
        [ "--kubeconfig=" ++ kubeconfigPath t;
          "--ginkgo.skip=" ++ SkipRegex t;
          "--ginkgo.focus=" ++ FocusRegex t;
          "--report-dir=" ++ artifacts_BaseDir w;
          "--ginkgo.timeout=" ++ Duration_String (Timeout t) ] in
      match shellquote_Split (GinkgoArgs t) with
      | Err err => fail (ErrGinkgoArgs err)
      | Ok extraGingkoArgs =>
          let ginkgoArgs :=
            app (app extraGingkoArgs ["--nodes=" ++ Itoa (Parallel t); e2eTestPath t; "--"])
                e2eTestArgs in
          emit (EvInfoLog (ginkgoPath t) ginkgoArgs);;
          emit (EvRun (ginkgoPath t) ginkgoArgs (Env t));;
          match cmd_Run w (ginkgoPath t) ginkgoArgs (Env t) with
          | Some msg => fail (ErrTestRun msg)
          | None => ret tt
          end
      end
  end.

Definition Execute : M unit :=
  if help_redefined then
    emit (EvPrintRedefinition (negb (defined (tester_flags ++ go_pflags) "help")));;
    fail ErrFlagRedefined
  else
    help <- parse_flags;;
    if help then emit EvPrintDefaults
    else initKubetest2Info;; Test.

End Program.

(** Running a computation on a receiver, from an empty trace. *)
Definition run {A} (m : M A) (t : Tester) : St * result error A := m (mkSt t []).

(** The kubeconfig path Test ends up using: the receiver's, or KUBECONFIG
    when the receiver's is empty. *)
Definition kube_resolved (w : World) (t : Tester) : option string :=
  if String.eqb (kubeconfigPath t) "" then LookupEnv w "KUBECONFIG"
  else Some (kubeconfigPath t).

(** The argument vector Test passes to ginkgo, in the order of §4.3 of the
    spec: extra words, --nodes, suite path, --, the five suite flags. *)
Definition spec_ginkgo_args (w : World) (t : Tester) (extra : list string) (kc : string)
  : list string :=
  app extra
    [ "--nodes=" ++ Itoa (Parallel t); e2eTestPath t; "--";
      "--kubeconfig=" ++ kc;
      "--ginkgo.skip=" ++ SkipRegex t;
      "--ginkgo.focus=" ++ FocusRegex t;
      "--report-dir=" ++ artifacts_BaseDir w;
      "--ginkgo.timeout=" ++ Duration_String (Timeout t) ].

Definition is_run (e : event) : bool :=
  match e with EvRun _ _ _ => true | _ => false end.

Definition is_clone (e : event) : bool :=
  match e with EvPlainClone _ _ => true | _ => false end.

(** ** Main *)

(** How the process ends. *)
Inductive main_outcome : Type :=
| MainReturned                (** Main returns *)
| MainOsExit (code : Z)       (** os.Exit inside pflag's Parse *)
| MainPanic                   (** pflag's panic on a redefined help flag *)
| MainFatal (e : error).      (** klog.Fatalf("failed to run ginkgo tester: %v", err) *)

(** The exit status of the process: a Go panic exits with 2 and klog's
    Fatalf with 255. *)
Definition exit_code (o : main_outcome) : Z :=
  match o with
  | MainReturned => 0
  | MainOsExit c => c
  | MainPanic => 2
  | MainFatal _ => 255
  end.

(** Main: Execute on NewDefaultTester; a returned error is fatal.  The
    panic of pflag is reported by the runtime, which exits with 2; klog's
    Fatalf logs the error and exits with 255. *)
Definition Main (PD : string -> option Z) (csv : string -> option (list string))
    (gf : list goflag) (eh : ErrorHandling) (w : World) : St * main_outcome :=
  let '(s, r) := run (Execute PD csv gf eh w) NewDefaultTester in
  match r with
  | Ok _ => (s, MainReturned)
  | Err ErrFlagRedefined => (mkSt (tester s) (trace s ++ [EvPanic; EvExit 2])%list, MainPanic)
  | Err (ErrExit c) => (s, MainOsExit c)
  | Err e => (mkSt (tester s) (trace s ++ [EvFatal e; EvExit 255])%list, MainFatal e)
  end.

(** The errors Test itself returns. *)
Definition test_error (e : error) : bool :=
  match e with
  | ErrMetadata _ | ErrClone _ | ErrKubeconfigMissing | ErrGinkgoArgs _ | ErrTestRun _ => true
  | _ => false
  end.

(** The help flag clashes exactly with a go flag named help or h. *)
Definition clashes_with_help (g : goflag) : bool :=
  String.eqb (go_name g) "help" || String.eqb (go_name g) "h".

Definition first_not_dash (p : string) : Prop := String.get 0 p <> Some "-"%char.

(** ** Sanity checks on concrete inputs *)

Definition env_of (kv : list (string * string)) (k : string) : option string :=
  option_map snd (find (fun p => String.eqb (fst p) k) kv).

(** A world where every external step succeeds. *)
Definition good_world (args : list string) (kv : list (string * string)) : World :=
  mkWorld args (env_of kv) (Ok "/cwd") "v0" (fun _ => None) (fun _ _ => None)
          "/artifacts" (fun _ _ _ => None).

(** A world whose clone fails. *)
Definition clone_fails_world (kv : list (string * string)) : World :=
  mkWorld ["prog"] (env_of kv) (Ok "/cwd") "v0" (fun _ => None)
          (fun _ _ => Some "repository not found") "/artifacts" (fun _ _ _ => None).

(** A world where writing the version metadata fails. *)
Definition metadata_fails_world : World :=
  mkWorld ["prog"] (env_of []) (Ok "/cwd") "v0" (fun _ => Some "no artifacts")
          (fun _ _ => None) "/artifacts" (fun _ _ _ => None).

(** A world whose every step succeeds, KUBECONFIG set, no other variable. *)
Definition world_kc (args : list string) : World := good_world args [("KUBECONFIG", "/kc")].

(** The vector Test launches for the defaults in [world_kc], after the
    words of GinkgoArgs and the --nodes token. *)
Definition default_tail : list string :=
  [""; "--"; "--kubeconfig=/kc"; "--ginkgo.skip="; "--ginkgo.focus=";
   "--report-dir=/artifacts"; "--ginkgo.timeout=24h0m0s"].

(** Stand-ins for the library parsers in concrete runs that do not use
    --timeout or --env. *)
Definition no_ParseDuration : string -> option Z := fun _ => None.
Definition csv_one : string -> option (list string) := fun s => Some [s].
Example Duration_String_24h : Duration_String (24 * Hour) = "24h0m0s".
Proof. reflexivity. Qed.

Example Duration_String_small : Duration_String (1500 * Microsecond) = "1.5ms".
Proof. reflexivity. Qed.

Example Itoa_neg : Itoa (-42) = "-42".
Proof. reflexivity. Qed.

Example split_example :
  shellquote_Split "--foo bar --baz 'qux quux'" = Ok ["--foo"; "bar"; "--baz"; "qux quux"].
Proof. reflexivity. Qed.

Example split_unterminated :
  shellquote_Split "'unterminated" = Err UnterminatedSingleQuoteError.
Proof. reflexivity. Qed.

Example ParseInt0_cases :
  (ParseInt0 "0", ParseInt0 "-1", ParseInt0 "0x_1", ParseInt0 "1__0", ParseInt0 "017",
   ParseInt0 "9223372036854775808")
  = (Some 0, Some (-1), Some 1, None, Some 15, None).
Proof. reflexivity. Qed.

Example Execute_runs_ginkgo :
  trace (fst (run (Execute no_ParseDuration csv_one [] ContinueOnError
    (good_world ["prog"; "--parallel=4"; "--ginkgo-args=--foo 'a b'"; "--repo"; "https://x"]
                [("KUBECONFIG", "/kc")])) NewDefaultTester))
  = [EvLookupEnv "KUBETEST2_RUN_DIR"; EvGetwd; EvWriteVersionToMetadata "v0";
     EvPlainClone "/cwd" "https://x"; EvLookupEnv "KUBECONFIG";
     EvInfoLog "" ["--foo"; "a b"; "--nodes=4"; ""; "--"; "--kubeconfig=/kc";
                   "--ginkgo.skip="; "--ginkgo.focus="; "--report-dir=/artifacts";
                   "--ginkgo.timeout=24h0m0s"];
     EvRun "" ["--foo"; "a b"; "--nodes=4"; ""; "--"; "--kubeconfig=/kc";
               "--ginkgo.skip="; "--ginkgo.focus="; "--report-dir=/artifacts";
               "--ginkgo.timeout=24h0m0s"] []].
Proof. vm_compute. reflexivity. Qed.

(** ** Properties *)

Lemma set_kubeconfigPath_same (t : Tester) : set_kubeconfigPath (kubeconfigPath t) t = t.
Proof. destruct t; reflexivity. Qed.

Ltac monad_simpl :=
  unfold bind, emit, get, modify, ret, fail, lookup_env in *; cbn -[shellquote_Split] in *.

(** Test, step by step, as a function of what the world answers. *)
Lemma Test_unfold (w : World) (t : Tester) (tr : list event) :
  Test w (mkSt t tr) =
  match WriteVersionToMetadata w (GitTag w) with
  | Some m => (mkSt t (tr ++ [EvWriteVersionToMetadata (GitTag w)])%list, Err (ErrMetadata m))
  | None =>
    let tr1 := (tr ++ [EvWriteVersionToMetadata (GitTag w); EvPlainClone (runDir t) (Repo t)])%list in
    match PlainClone w (runDir t) (Repo t) with
    | Some m => (mkSt t tr1, Err (ErrClone m))
    | None =>
      let tr2 := if String.eqb (kubeconfigPath t) "" then (tr1 ++ [EvLookupEnv "KUBECONFIG"])%list
                 else tr1 in
      match kube_resolved w t with
      | None => (mkSt t tr2, Err ErrKubeconfigMissing)
      | Some kc =>
        let t' := set_kubeconfigPath kc t in
        match shellquote_Split (GinkgoArgs t) with
        | Err e => (mkSt t' tr2, Err (ErrGinkgoArgs e))
        | Ok extra =>
          let args := spec_ginkgo_args w t extra kc in
          (mkSt t' (tr2 ++ [EvInfoLog (ginkgoPath t) args; EvRun (ginkgoPath t) args (Env t)])%list,
           match cmd_Run w (ginkgoPath t) args (Env t) with
           | Some m => Err (ErrTestRun m)
           | None => Ok tt
           end)
        end
      end
    end
  end.
Proof.
  unfold Test, pretestSetup, kube_resolved. monad_simpl.
  destruct (WriteVersionToMetadata w (GitTag w)); cbn -[shellquote_Split]; [reflexivity|].
  destruct (PlainClone w (runDir t) (Repo t)); cbn -[shellquote_Split];
    [rewrite <- app_assoc; reflexivity|].
  destruct (String.eqb (kubeconfigPath t) "") eqn:E; cbn -[shellquote_Split].
  - destruct (LookupEnv w "KUBECONFIG") as [kc|]; cbn -[shellquote_Split];
      [|repeat rewrite <- app_assoc; reflexivity].
    destruct t; cbn -[shellquote_Split] in *.
    destruct (shellquote_Split GinkgoArgs0); cbn -[shellquote_Split];
      [|repeat rewrite <- app_assoc; reflexivity].
    unfold spec_ginkgo_args; cbn -[shellquote_Split].
    repeat rewrite <- app_assoc; cbn -[shellquote_Split].
    destruct (cmd_Run _ _ _ _); reflexivity.
  - rewrite set_kubeconfigPath_same.
    destruct (shellquote_Split (GinkgoArgs t)); cbn -[shellquote_Split];
      [|repeat rewrite <- app_assoc; reflexivity].
    unfold spec_ginkgo_args; cbn -[shellquote_Split].
    repeat rewrite <- app_assoc; cbn -[shellquote_Split].
    destruct (cmd_Run _ _ _ _); reflexivity.
Qed.

(** A trace ending in two given events ends in the second. *)
Ltac ends_exit :=
  intros _;
  match goal with
  | |- exists pre, (?l ++ [?a; ?b])%list = _ => exists (l ++ [a])%list; rewrite <- app_assoc; reflexivity
  end.

(** A trace with no subprocess event in it. *)
Ltac no_run H :=
  cbn in H; exfalso;
  repeat (destruct H as [H|H]; [discriminate H|]); exact H.

(** The subprocess event of a run of Test, when there is one. *)
Lemma Test_run_event (w : World) (t : Tester) (name : string) (args env : list string) :
  In (EvRun name args env) (trace (fst (run (Test w) t))) ->
  WriteVersionToMetadata w (GitTag w) = None /\
  PlainClone w (runDir t) (Repo t) = None /\
  exists kc ws, kube_resolved w t = Some kc /\ shellquote_Split (GinkgoArgs t) = Ok ws /\
    name = ginkgoPath t /\ env = Env t /\ args = spec_ginkgo_args w t ws kc.
Proof.
  unfold run. rewrite Test_unfold. intro Hin.
  destruct (WriteVersionToMetadata w (GitTag w));
    [no_run Hin|].
  destruct (PlainClone w (runDir t) (Repo t));
    [no_run Hin|].
  destruct (kube_resolved w t) as [kc|];
    [|destruct (String.eqb _ _); no_run Hin].
  destruct (shellquote_Split (GinkgoArgs t)) as [ws|e];
    [|destruct (String.eqb _ _); no_run Hin].
  repeat split; auto. exists kc, ws.
  assert (Hr : EvRun name args env = EvRun (ginkgoPath t) (spec_ginkgo_args w t ws kc) (Env t)).
  { destruct (String.eqb _ _); cbn in Hin;
    repeat (destruct Hin as [Hin|Hin]; [first [discriminate Hin | symmetry; exact Hin]|]);
    contradiction. }
  injection Hr as -> -> ->. auto.
Qed.

(** No subprocess event before Test reaches its last step. *)
Lemma Test_no_run_if (w : World) (t : Tester) :
  (WriteVersionToMetadata w (GitTag w) <> None \/
   PlainClone w (runDir t) (Repo t) <> None \/
   kube_resolved w t = None \/
   (exists e, shellquote_Split (GinkgoArgs t) = Err e)) ->
  forall name args env, ~ In (EvRun name args env) (trace (fst (run (Test w) t))).
Proof.
  intros H name args env Hin.
  destruct (Test_run_event w t name args env Hin) as (H1 & H2 & kc & ws & H3 & H4 & _).
  destruct H as [H|[H|[H|[e H]]]]; congruence.
Qed.

(** The result of Test once the metadata write and the clone succeeded. *)
Lemma Test_result_after_clone (w : World) (t : Tester) :
  WriteVersionToMetadata w (GitTag w) = None ->
  PlainClone w (runDir t) (Repo t) = None ->
  snd (run (Test w) t) =
  match kube_resolved w t with
  | None => Err ErrKubeconfigMissing
  | Some kc =>
      match shellquote_Split (GinkgoArgs t) with
      | Err e => Err (ErrGinkgoArgs e)
      | Ok ws =>
          match cmd_Run w (ginkgoPath t) (spec_ginkgo_args w t ws kc) (Env t) with
          | Some m => Err (ErrTestRun m)
          | None => Ok tt
          end
      end
  end.
Proof.
  intros H1 H2. unfold run. rewrite Test_unfold, H1, H2.
  destruct (kube_resolved w t); [|reflexivity].
  destruct (shellquote_Split (GinkgoArgs t)); reflexivity.
Qed.

Lemma count_occ_fixed_suffix (w : World) (t : Tester) (kc : string) :
  Parallel t = 4 ->
  count_occ string_dec
    [ "--nodes=" ++ Itoa (Parallel t); e2eTestPath t; "--";
      "--kubeconfig=" ++ kc;
      "--ginkgo.skip=" ++ SkipRegex t;
      "--ginkgo.focus=" ++ FocusRegex t;
      "--report-dir=" ++ artifacts_BaseDir w;
      "--ginkgo.timeout=" ++ Duration_String (Timeout t) ] "--nodes=4"
  = S (if String.eqb (e2eTestPath t) "--nodes=4" then 1 else 0)%nat.
Proof.
  intro HP. rewrite HP. cbn -[Duration_String].
  destruct (String.eqb_spec (e2eTestPath t) "--nodes=4") as [He|He];
  destruct (string_dec (e2eTestPath t) "--nodes=4"); try contradiction; reflexivity.
Qed.

(** ** Claims *)

(** C1: whenever GinkgoArgs splits into the words [ws] and Test launches
    ginkgo, the argument vector is exactly [ws], then "--nodes=<Parallel>",
    then the suite path, then "--", then the kubeconfig, skip, focus,
    report-dir and timeout flags in this order, the timeout printed by
    Duration.String. *)
Theorem Test_argument_vector (w : World) (t : Tester) (ws : list string)
    (name : string) (args env : list string) :
  shellquote_Split (GinkgoArgs t) = Ok ws ->
  In (EvRun name args env) (trace (fst (run (Test w) t))) ->
  exists kc, kube_resolved w t = Some kc /\
  args = app ws
    [ "--nodes=" ++ Itoa (Parallel t); e2eTestPath t; "--";
      "--kubeconfig=" ++ kc;
      "--ginkgo.skip=" ++ SkipRegex t;
      "--ginkgo.focus=" ++ FocusRegex t;
      "--report-dir=" ++ artifacts_BaseDir w;
      "--ginkgo.timeout=" ++ Duration_String (Timeout t) ].
Proof.
  intros Hs Hin.
  destruct (Test_run_event w t name args env Hin) as (_ & _ & kc & ws' & Hk & Hs' & _ & _ & Ha).
  rewrite Hs in Hs'. injection Hs' as <-.
  exists kc. split; [exact Hk | exact Ha].
Qed.

(** C2 (amended): with Parallel = 4 the vector Test launches holds one
    "--nodes=4" of its own plus every "--nodes=4" word of the split
    GinkgoArgs (and the suite path, were it that string); so exactly one
    when GinkgoArgs has no such word. *)
Theorem Test_nodes_token_count (w : World) (t : Tester) (ws : list string)
    (name : string) (args env : list string) :
  Parallel t = 4 ->
  shellquote_Split (GinkgoArgs t) = Ok ws ->
  In (EvRun name args env) (trace (fst (run (Test w) t))) ->
  count_occ string_dec args "--nodes=4"
  = S (count_occ string_dec ws "--nodes=4"
       + (if String.eqb (e2eTestPath t) "--nodes=4" then 1 else 0))%nat.
Proof.
  intros HP Hs Hin.
  destruct (Test_run_event w t name args env Hin) as (_ & _ & kc & ws' & _ & Hs' & _ & _ & Ha).
  rewrite Hs in Hs'. injection Hs' as <-. subst args.
  unfold spec_ginkgo_args. rewrite count_occ_app, (count_occ_fixed_suffix w t kc HP).
  lia.
Qed.

(** C3 (amended): Split follows shell word splitting ("--foo bar --baz
    'qux quux'" gives four words, "'unterminated" is an unterminated
    quote).  When GinkgoArgs does not split, Test never launches ginkgo,
    and it returns the parse error once the metadata write, the clone and
    the kubeconfig lookup (which come first) have succeeded; an earlier
    failure's error is returned instead. *)
Theorem Test_ginkgo_args_error (w : World) (t : Tester) (e : sq_error) :
  shellquote_Split (GinkgoArgs t) = Err e ->
  shellquote_Split "--foo bar --baz 'qux quux'" = Ok ["--foo"; "bar"; "--baz"; "qux quux"] /\
  shellquote_Split "'unterminated" = Err UnterminatedSingleQuoteError /\
  (forall name args env, ~ In (EvRun name args env) (trace (fst (run (Test w) t)))) /\
  (WriteVersionToMetadata w (GitTag w) = None ->
   PlainClone w (runDir t) (Repo t) = None ->
   kube_resolved w t <> None ->
   snd (run (Test w) t) = Err (ErrGinkgoArgs e)) /\
  snd (run (Test w) t) =
    match WriteVersionToMetadata w (GitTag w) with
    | Some m => Err (ErrMetadata m)
    | None =>
        match PlainClone w (runDir t) (Repo t) with
        | Some m => Err (ErrClone m)
        | None =>
            match kube_resolved w t with
            | None => Err ErrKubeconfigMissing
            | Some _ => Err (ErrGinkgoArgs e)
            end
        end
    end.
Proof.
  intro Hs. split; [reflexivity|]. split; [reflexivity|]. split; [|split].
  - apply Test_no_run_if. right; right; right. exists e; exact Hs.
  - intros H1 H2 Hk. rewrite (Test_result_after_clone w t H1 H2).
    destruct (kube_resolved w t); [|contradiction]. rewrite Hs. reflexivity.
  - unfold run. rewrite Test_unfold, Hs.
    destruct (WriteVersionToMetadata w (GitTag w)); [reflexivity|].
    destruct (PlainClone w (runDir t) (Repo t)); [reflexivity|].
    destruct (kube_resolved w t); reflexivity.
Qed.

(** C4 (amended): with no kubeconfig path and KUBECONFIG unset, Test never
    launches ginkgo; it returns the missing-kubeconfig error once the
    metadata write and the clone (which come first) have succeeded, and
    the error of the metadata write or of the clone when that fails. *)
Theorem Test_kubeconfig_missing (w : World) (t : Tester) :
  kubeconfigPath t = "" ->
  LookupEnv w "KUBECONFIG" = None ->
  (forall name args env, ~ In (EvRun name args env) (trace (fst (run (Test w) t)))) /\
  (WriteVersionToMetadata w (GitTag w) = None ->
   PlainClone w (runDir t) (Repo t) = None ->
   snd (run (Test w) t) = Err ErrKubeconfigMissing) /\
  snd (run (Test w) t) =
    match WriteVersionToMetadata w (GitTag w) with
    | Some m => Err (ErrMetadata m)
    | None =>
        match PlainClone w (runDir t) (Repo t) with
        | Some m => Err (ErrClone m)
        | None => Err ErrKubeconfigMissing
        end
    end.
Proof.
  intros Hp He.
  assert (Hk : kube_resolved w t = None) by (unfold kube_resolved; rewrite Hp; exact He).
  split; [|split].
  - apply Test_no_run_if. right; right; left; exact Hk.
  - intros H1 H2. rewrite (Test_result_after_clone w t H1 H2), Hk. reflexivity.
  - unfold run. rewrite Test_unfold, Hk.
    destruct (WriteVersionToMetadata w (GitTag w)); [reflexivity|].
    destruct (PlainClone w (runDir t) (Repo t)); reflexivity.
Qed.

(** C5: when the clone is attempted and fails with [m], Test returns the
    clone error wrapping [m], launches nothing, and clones exactly once. *)
Theorem Test_clone_failure (w : World) (t : Tester) (m : string) :
  PlainClone w (runDir t) (Repo t) = Some m ->
  In (EvPlainClone (runDir t) (Repo t)) (trace (fst (run (Test w) t))) ->
  snd (run (Test w) t) = Err (ErrClone m) /\
  (forall name args env, ~ In (EvRun name args env) (trace (fst (run (Test w) t)))) /\
  length (filter is_clone (trace (fst (run (Test w) t)))) = 1%nat.
Proof.
  intros Hc Hin. unfold run in *. rewrite Test_unfold in *.
  destruct (WriteVersionToMetadata w (GitTag w)).
  - cbn in Hin. destruct Hin as [Hin|Hin]; [discriminate Hin | contradiction].
  - rewrite Hc. cbn. split; [reflexivity|]. split; [|reflexivity].
    intros name args env Hr. no_run Hr.
Qed.

(** C7 (amended): nothing checks parallelism, flake attempts or timeout:
    Test launches ginkgo exactly when the metadata write, the clone, the
    kubeconfig lookup and the split of GinkgoArgs succeed, none of which
    reads those fields.  Only the defaults satisfy the bounds. *)
Theorem Test_launch_iff (w : World) (t : Tester) :
  ((exists name args env, In (EvRun name args env) (trace (fst (run (Test w) t)))) <->
   (WriteVersionToMetadata w (GitTag w) = None /\
    PlainClone w (runDir t) (Repo t) = None /\
    kube_resolved w t <> None /\
    exists ws, shellquote_Split (GinkgoArgs t) = Ok ws)) /\
  FlakeAttempts NewDefaultTester = 1 /\ Parallel NewDefaultTester = 1 /\
  Timeout NewDefaultTester = 24 * Hour.
Proof.
  split; [|repeat split]. split.
  - intros (name & args & env & Hin).
    destruct (Test_run_event w t name args env Hin) as (H1 & H2 & kc & ws & Hk & Hs & _).
    repeat split; auto; [congruence | exists ws; exact Hs].
  - intros (H1 & H2 & Hk & ws & Hs).
    destruct (kube_resolved w t) as [kc|] eqn:Hk'; [|contradiction].
    exists (ginkgoPath t), (spec_ginkgo_args w t ws kc), (Env t).
    unfold run. rewrite Test_unfold, H1, H2, Hk', Hs.
    apply in_or_app. right. right. left. reflexivity.
Qed.

(** C9: FlakeAttempts is never read: Test on two receivers that differ
    only in FlakeAttempts has the same interactions (so the same argument
    vector, binary and environment) and the same result. *)
Theorem Test_FlakeAttempts_no_effect (w : World) (t : Tester) (n : Z) :
  trace (fst (run (Test w) (set_FlakeAttempts n t))) = trace (fst (run (Test w) t)) /\
  snd (run (Test w) (set_FlakeAttempts n t)) = snd (run (Test w) t).
Proof.
  unfold run. rewrite !Test_unfold.
  destruct t; cbn -[shellquote_Split spec_ginkgo_args].
  destruct (WriteVersionToMetadata w (GitTag w)); [split; reflexivity|].
  destruct (PlainClone w runDir0 Repo0); [split; reflexivity|].
  unfold kube_resolved; cbn -[shellquote_Split spec_ginkgo_args].
  destruct (String.eqb kubeconfigPath0 "").
  - destruct (LookupEnv w "KUBECONFIG"); [|split; reflexivity].
    destruct (shellquote_Split GinkgoArgs0); [|split; reflexivity].
    split; [reflexivity|]. reflexivity.
  - destruct (shellquote_Split GinkgoArgs0); [|split; reflexivity].
    split; reflexivity.
Qed.

(** ** Flag parsing and Execute *)

Definition binary_paths (t : Tester) : string * string := (e2eTestPath t, ginkgoPath t).

Section Parsing.

Variable ParseDuration : string -> option Z.
Variable readAsCSV : string -> option (list string).
Variable go_flags : list goflag.

Lemma set_value_paths (ps ps' : pstate) (tg : flag_target) (v : string) :
  set_value ParseDuration readAsCSV ps tg v = Some ps' ->
  binary_paths (ptester ps') = binary_paths (ptester ps).
Proof.
  destruct ps as [[] h c]; intro H; destruct tg; cbn in H; unfold option_map in H;
    repeat match type of H with
           | context [match ?x with _ => _ end] => destruct x
           | context [if ?x then _ else _] => destruct x
           end;
    try discriminate H; injection H as <-; reflexivity.
Qed.

Lemma set_flag_paths (ps ps' : pstate) (f : pflag) (v : string) :
  set_flag ParseDuration readAsCSV ps f v = Ok ps' ->
  binary_paths (ptester ps') = binary_paths (ptester ps).
Proof.
  unfold set_flag. destruct (set_value _ _ ps (flag_target_of f) v) eqn:H; [|discriminate].
  intro E; injection E as <-. exact (set_value_paths _ _ _ _ H).
Qed.

Ltac split_sets :=
  repeat match goal with
  | |- context [match set_flag ?a ?b ?ps ?f ?v with _ => _ end] =>
      let H := fresh "Hset" in
      destruct (set_flag a b ps f v) eqn:H; [apply set_flag_paths in H|]
  | |- context [match ?x with _ => _ end] => destruct x
  | |- context [if ?x then _ else _] => destruct x
  end.

Lemma parse_shorts_paths (sh : list ascii) :
  forall next ps,
  binary_paths (ptester (fst (fst (parse_shorts ParseDuration readAsCSV go_flags sh next ps))))
  = binary_paths (ptester ps).
Proof.
  induction sh as [|c rest IH]; intros next ps; cbn [parse_shorts]; [reflexivity|].
  split_sets; cbn [fst]; try reflexivity; try assumption.
  all: rewrite IH; assumption.
Qed.

Lemma parseArgs_paths_bound (n : nat) :
  forall args ps, (length args <= n)%nat ->
  binary_paths (ptester (fst (parseArgs ParseDuration readAsCSV go_flags args ps)))
  = binary_paths (ptester ps).
Proof.
  induction n as [|n IH]; intros [|s rest] ps Hlen; cbn [parseArgs]; try reflexivity.
  - cbn in Hlen; lia.
  - cbn [length] in Hlen.
    destruct (classify (list_ascii_of_string s)) as [| |name|sh].
    + apply IH; lia.
    + reflexivity.
    + split_sets; cbn [fst]; try reflexivity;
        try (rewrite IH; [assumption | cbn in *; lia]).
    + pose proof (parse_shorts_paths sh (hd_error rest) ps) as Hs.
      destruct (parse_shorts _ _ _ sh (hd_error rest) ps) as [[ps' [e|]] []];
        cbn [fst] in *; try exact Hs.
      * destruct rest as [|r rest']; [exact Hs|].
        rewrite IH; [exact Hs | cbn in *; lia].
      * rewrite IH; [exact Hs | lia].
Qed.

Lemma parseArgs_paths (args : list string) (ps : pstate) :
  binary_paths (ptester (fst (parseArgs ParseDuration readAsCSV go_flags args ps)))
  = binary_paths (ptester ps).
Proof. apply (parseArgs_paths_bound (length args)); lia. Qed.

End Parsing.

Lemma initKubetest2Info_unfold (w : World) (t : Tester) (tr : list event) :
  initKubetest2Info w (mkSt t tr) =
  match LookupEnv w "KUBETEST2_RUN_DIR" with
  | Some dir => (mkSt (set_runDir dir t) (tr ++ [EvLookupEnv "KUBETEST2_RUN_DIR"])%list, Ok tt)
  | None =>
      match Getwd w with
      | Err m => (mkSt t (tr ++ [EvLookupEnv "KUBETEST2_RUN_DIR"; EvGetwd])%list, Err (ErrRunDir m))
      | Ok dir =>
          (mkSt (set_runDir dir t) (tr ++ [EvLookupEnv "KUBETEST2_RUN_DIR"; EvGetwd])%list, Ok tt)
      end
  end.
Proof.
  unfold initKubetest2Info. monad_simpl.
  destruct (LookupEnv w "KUBETEST2_RUN_DIR"); [reflexivity|].
  destruct (Getwd w); cbn; repeat rewrite <- app_assoc; reflexivity.
Qed.

Lemma Execute_unfold (PD : string -> option Z) (csv : string -> option (list string))
    (gf : list goflag) (eh : ErrorHandling) (w : World) (t : Tester) (tr : list event) :
  Execute PD csv gf eh w (mkSt t tr) =
  if help_redefined gf then
    (mkSt t (tr ++ [EvPrintRedefinition (negb (defined (tester_flags ++ go_pflags gf) "help"))])%list,
     Err ErrFlagRedefined)
  else
    match parseArgs PD csv gf (os_Args w) (mkPstate t false false) with
    | (ps, Some e) =>
        match eh with
        | ContinueOnError => (mkSt (ptester ps) tr, Err (ErrParseFlags e))
        | ExitOnError =>
            (mkSt (ptester ps) (tr ++ [EvPrintError e; EvExit 2])%list, Err (ErrExit 2))
        end
    | (ps, None) =>
        if phelp ps then (mkSt (ptester ps) (tr ++ [EvPrintDefaults])%list, Ok tt)
        else bind (initKubetest2Info w) (fun _ => Test w) (mkSt (ptester ps) tr)
    end.
Proof.
  unfold Execute, parse_flags, parse_failure.
  destruct (help_redefined gf); [unfold bind, emit, fail; reflexivity|].
  monad_simpl.
  destruct (parseArgs PD csv gf (os_Args w) (mkPstate t false false)) as [ps [e|]].
  - destruct eh; cbn; [reflexivity|]. repeat rewrite <- app_assoc. reflexivity.
  - cbn. destruct (phelp ps); reflexivity.
Qed.

(** Test writes no field but kubeconfigPath. *)
Lemma Test_tester (w : World) (t : Tester) (tr : list event) :
  tester (fst (Test w (mkSt t tr))) = t \/
  exists kc, tester (fst (Test w (mkSt t tr))) = set_kubeconfigPath kc t.
Proof.
  rewrite Test_unfold.
  destruct (WriteVersionToMetadata w (GitTag w)); [left; reflexivity|].
  destruct (PlainClone w (runDir t) (Repo t)); [left; reflexivity|].
  destruct (kube_resolved w t) as [kc|]; [|left; reflexivity].
  right. exists kc. destruct (shellquote_Split (GinkgoArgs t)); reflexivity.
Qed.

(** Test appends its events to the trace it is given. *)
Lemma Test_trace_app (w : World) (t : Tester) (tr : list event) :
  trace (fst (Test w (mkSt t tr))) = (tr ++ trace (fst (run (Test w) t)))%list.
Proof.
  unfold run. rewrite !Test_unfold.
  destruct (WriteVersionToMetadata w (GitTag w)); [reflexivity|].
  destruct (PlainClone w (runDir t) (Repo t)); [reflexivity|].
  destruct (String.eqb (kubeconfigPath t) "");
  destruct (kube_resolved w t); cbn -[shellquote_Split spec_ginkgo_args];
    repeat rewrite <- app_assoc; try reflexivity;
  destruct (shellquote_Split (GinkgoArgs t)); cbn -[spec_ginkgo_args];
    repeat rewrite <- app_assoc; reflexivity.
Qed.

(** C6 (amended): when the flag set is built and parsing os.Args succeeds
    with the help flag set, Execute prints the flag documentation and
    returns success; it makes no other interaction (no run-dir lookup, no
    clone, no subprocess).  When parsing fails, whatever the help flag,
    nothing is printed but pflag's error report: the run fails with the
    parse error, or with exit status 2 under ExitOnError. *)
Theorem Execute_help (PD : string -> option Z) (csv : string -> option (list string))
    (gf : list goflag) (eh : ErrorHandling) (w : World) (t : Tester) (tr : list event) :
  help_redefined gf = false ->
  (forall ps,
     parseArgs PD csv gf (os_Args w) (mkPstate t false false) = (ps, None) ->
     phelp ps = true ->
     Execute PD csv gf eh w (mkSt t tr) = (mkSt (ptester ps) (tr ++ [EvPrintDefaults])%list, Ok tt)) /\
  (forall ps e,
     parseArgs PD csv gf (os_Args w) (mkPstate t false false) = (ps, Some e) ->
     Execute PD csv gf eh w (mkSt t tr) =
       match eh with
       | ContinueOnError => (mkSt (ptester ps) tr, Err (ErrParseFlags e))
       | ExitOnError => (mkSt (ptester ps) (tr ++ [EvPrintError e; EvExit 2])%list, Err (ErrExit 2))
       end).
Proof.
  intro Hr. split.
  - intros ps Hp Hh. rewrite Execute_unfold, Hr, Hp, Hh. reflexivity.
  - intros ps e Hp. rewrite Execute_unfold, Hr, Hp. reflexivity.
Qed.

(** C8 (amended): after flag parsing, the later steps of Execute write
    only the two internal fields runDir (initKubetest2Info) and
    kubeconfigPath (Test); every flag field and every binary path keeps
    the value parsing left. *)
Theorem Execute_config_frame (PD : string -> option Z) (csv : string -> option (list string))
    (gf : list goflag) (eh : ErrorHandling) (w : World) (t : Tester) (tr : list event)
    (ps : pstate) :
  help_redefined gf = false ->
  parseArgs PD csv gf (os_Args w) (mkPstate t false false) = (ps, None) ->
  let t' := tester (fst (Execute PD csv gf eh w (mkSt t tr))) in
  t' = set_kubeconfigPath (kubeconfigPath t') (set_runDir (runDir t') (ptester ps)).
Proof.
  intros Hr Hp t'. subst t'. rewrite Execute_unfold, Hr, Hp.
  destruct (phelp ps); [destruct (ptester ps); reflexivity|].
  unfold bind. rewrite initKubetest2Info_unfold.
  destruct (LookupEnv w "KUBETEST2_RUN_DIR") as [dir|];
    [|destruct (Getwd w) as [dir|m]; [|destruct (ptester ps); reflexivity]];
    cbn [fst tester];
    match goal with
    | |- context [Test w (mkSt ?t0 ?tr0)] =>
        destruct (Test_tester w t0 tr0) as [E|[kc E]]; rewrite E;
        destruct (ptester ps); reflexivity
    end.
Qed.

(** C10: ginkgoPath and e2eTestPath are never assigned: from
    NewDefaultTester they stay empty through Execute, so ginkgo is run at
    the empty path with the empty string as the suite path token. *)
Theorem Execute_empty_binary_paths (PD : string -> option Z)
    (csv : string -> option (list string)) (gf : list goflag) (eh : ErrorHandling)
    (w : World) (name : string) (args env : list string) :
  In (EvRun name args env) (trace (fst (run (Execute PD csv gf eh w) NewDefaultTester))) ->
  name = "" /\
  (exists pre p post, args = app pre (app ["--nodes=" ++ Itoa p; ""; "--"] post)) /\
  e2eTestPath (tester (fst (run (Execute PD csv gf eh w) NewDefaultTester))) = "" /\
  ginkgoPath (tester (fst (run (Execute PD csv gf eh w) NewDefaultTester))) = "".
Proof.
  unfold run. rewrite Execute_unfold. intro Hin.
  destruct (help_redefined gf); [no_run Hin|].
  pose proof (parseArgs_paths PD csv gf (os_Args w) (mkPstate NewDefaultTester false false)) as Hpaths.
  destruct (parseArgs PD csv gf (os_Args w) (mkPstate NewDefaultTester false false))
    as [ps [e|]].
  { destruct eh; [contradiction | no_run Hin]. }
  destruct (phelp ps); [no_run Hin|].
  cbn [fst] in Hpaths. unfold binary_paths in Hpaths. cbn in Hpaths.
  injection Hpaths as He2e Hgk.
  unfold bind in *. rewrite initKubetest2Info_unfold in *.
  destruct (LookupEnv w "KUBETEST2_RUN_DIR") as [dir|];
    [|destruct (Getwd w) as [dir|m]; [|no_run Hin]];
    match type of Hin with
    | In _ (trace (fst (Test w (mkSt ?t0 ?tr0)))) =>
        rewrite Test_trace_app in Hin;
        apply in_app_or in Hin; destruct Hin as [Hin|Hin]; [no_run Hin|];
        destruct (Test_run_event w t0 name args env Hin)
          as (_ & _ & kc & ws & _ & _ & Hn & _ & Ha);
        destruct (Test_tester w t0 tr0) as [E|[kc' E]]; rewrite E;
        destruct (ptester ps); cbn in *; subst;
        (split; [reflexivity|]);
        (split; [|split; reflexivity]);
        unfold spec_ginkgo_args; cbn;
        eexists ws, _, _; reflexivity
    end.
Qed.

(** ** Further properties of the tester *)

(** X1: initKubetest2Info fails only when KUBETEST2_RUN_DIR is unset and
    os.Getwd fails, and then leaves the receiver unchanged.  A set
    variable (even empty) becomes runDir without a call to Getwd;
    otherwise runDir is the working directory. *)
Theorem initKubetest2Info_outcome (w : World) (t : Tester) :
  (snd (run (initKubetest2Info w) t) = Ok tt <->
   LookupEnv w "KUBETEST2_RUN_DIR" <> None \/ exists d, Getwd w = Ok d) /\
  (forall d, LookupEnv w "KUBETEST2_RUN_DIR" = Some d ->
   tester (fst (run (initKubetest2Info w) t)) = set_runDir d t /\
   ~ In EvGetwd (trace (fst (run (initKubetest2Info w) t)))) /\
  (forall d, LookupEnv w "KUBETEST2_RUN_DIR" = None -> Getwd w = Ok d ->
   tester (fst (run (initKubetest2Info w) t)) = set_runDir d t) /\
  (forall e, snd (run (initKubetest2Info w) t) = Err e ->
   tester (fst (run (initKubetest2Info w) t)) = t).
Proof.
  unfold run. rewrite initKubetest2Info_unfold.
  destruct (LookupEnv w "KUBETEST2_RUN_DIR") as [dir|] eqn:E.
  - cbn. split; [split; [intros _; left; discriminate | reflexivity]|].
    split; [|split].
    + intros d Hd; inversion Hd; subst. split; [reflexivity|].
      intros [H|H]; [discriminate H | exact H].
    + intros d Hd; discriminate Hd.
    + intros e He; discriminate He.
  - destruct (Getwd w) as [dir|m] eqn:G; cbn.
    + split; [split; [intros _; right; exists dir; reflexivity | reflexivity]|].
      split; [|split].
      * intros d Hd; discriminate Hd.
      * intros d _ Hd; inversion Hd; subst; reflexivity.
      * intros e He; discriminate He.
    + split; [split; [discriminate | intros [H|[d H]]; [contradiction | discriminate H]]|].
      split; [|split].
      * intros d Hd; discriminate Hd.
      * intros d _ Hd; discriminate Hd.
      * intros e _; reflexivity.
Qed.

(** X2: when writing the version metadata fails, Test returns that error
    at once: the metadata write is its only interaction (no clone, no
    lookup, no subprocess) and the receiver is unchanged. *)
Theorem Test_metadata_failure (w : World) (t : Tester) (m : string) :
  WriteVersionToMetadata w (GitTag w) = Some m ->
  run (Test w) t = (mkSt t [EvWriteVersionToMetadata (GitTag w)], Err (ErrMetadata m)).
Proof. intro H. unfold run. rewrite Test_unfold, H. reflexivity. Qed.


Lemma kube_resolved_nonempty (w : World) (t : Tester) :
  kubeconfigPath t <> "" -> kube_resolved w t = Some (kubeconfigPath t).
Proof.
  intro Hp. unfold kube_resolved.
  destruct (String.eqb_spec (kubeconfigPath t) ""); congruence.
Qed.

Lemma Test_nonempty_kubeconfig (w : World) (t : Tester) :
  kubeconfigPath t <> "" ->
  ~ In (EvLookupEnv "KUBECONFIG") (trace (fst (run (Test w) t))) /\
  tester (fst (run (Test w) t)) = t /\
  (forall name args env, In (EvRun name args env) (trace (fst (run (Test w) t))) ->
   In ("--kubeconfig=" ++ kubeconfigPath t) args).
Proof.
  intro Hp. pose proof (kube_resolved_nonempty w t Hp) as Hk.
  split; [|split].
  - unfold run. rewrite Test_unfold.
    destruct (String.eqb_spec (kubeconfigPath t) "") as [E|_]; [contradiction|].
    rewrite Hk.
    destruct (WriteVersionToMetadata w (GitTag w)); [intro H; no_run H|].
    destruct (PlainClone w (runDir t) (Repo t)); [intro H; no_run H|].
    destruct (shellquote_Split (GinkgoArgs t)); intro H; no_run H.
  - unfold run. rewrite Test_unfold, Hk, set_kubeconfigPath_same.
    destruct (WriteVersionToMetadata w (GitTag w)); [reflexivity|].
    destruct (PlainClone w (runDir t) (Repo t)); [reflexivity|].
    destruct (shellquote_Split (GinkgoArgs t)); reflexivity.
  - intros name args env Hin.
    destruct (Test_run_event w t name args env Hin) as (_ & _ & kc & ws & Hk' & _ & _ & _ & ->).
    rewrite Hk in Hk'. injection Hk' as <-.
    unfold spec_ginkgo_args. apply in_or_app. right. cbn. tauto.
Qed.

(** X3: with a non-empty kubeconfigPath, Test never looks up KUBECONFIG,
    leaves the receiver unchanged, and any launch passes
    --kubeconfig=<that path>. *)
Theorem Test_configured_kubeconfig (w : World) (t : Tester) :
  kubeconfigPath t <> "" ->
  ~ In (EvLookupEnv "KUBECONFIG") (trace (fst (run (Test w) t))) /\
  tester (fst (run (Test w) t)) = t /\
  (forall name args env, In (EvRun name args env) (trace (fst (run (Test w) t))) ->
   In ("--kubeconfig=" ++ kubeconfigPath t) args).
Proof. intro Hp. exact (Test_nonempty_kubeconfig w t Hp). Qed.

(** X4: once Test has taken a non-empty kubeconfig from KUBECONFIG, the
    path stays in the receiver (whatever the split or the run gives), so
    a later Test on it, in any environment, does not look KUBECONFIG up
    again and passes the same path. *)
Theorem Test_kubeconfig_sticks (w w2 : World) (t : Tester) (kc : string) :
  kubeconfigPath t = "" ->
  WriteVersionToMetadata w (GitTag w) = None ->
  PlainClone w (runDir t) (Repo t) = None ->
  LookupEnv w "KUBECONFIG" = Some kc -> kc <> "" ->
  let t1 := tester (fst (run (Test w) t)) in
  kubeconfigPath t1 = kc /\
  ~ In (EvLookupEnv "KUBECONFIG") (trace (fst (run (Test w2) t1))) /\
  (forall name args env, In (EvRun name args env) (trace (fst (run (Test w2) t1))) ->
   In ("--kubeconfig=" ++ kc) args).
Proof.
  intros Hp H1 H2 He Hne t1.
  assert (E : t1 = set_kubeconfigPath kc t).
  { subst t1. unfold run. rewrite Test_unfold, H1, H2.
    unfold kube_resolved. rewrite Hp, He. cbn -[shellquote_Split].
    destruct (shellquote_Split (GinkgoArgs t)); reflexivity. }
  assert (Hk : kubeconfigPath t1 = kc) by (rewrite E; destruct t; reflexivity).
  rewrite <- Hk in Hne |- *.
  destruct (Test_nonempty_kubeconfig w2 t1 Hne) as (A & _ & C).
  split; [reflexivity | split; assumption].
Qed.

(** X5: KUBECONFIG set to the empty string counts as provided: Test does
    not report a missing kubeconfig, kubeconfigPath stays empty, and a
    launch passes the bare --kubeconfig= token. *)
Theorem Test_empty_KUBECONFIG (w : World) (t : Tester) :
  kubeconfigPath t = "" -> LookupEnv w "KUBECONFIG" = Some "" ->
  snd (run (Test w) t) <> Err ErrKubeconfigMissing /\
  kubeconfigPath (tester (fst (run (Test w) t))) = "" /\
  (forall name args env, In (EvRun name args env) (trace (fst (run (Test w) t))) ->
   In "--kubeconfig=" args).
Proof.
  intros Hp He.
  assert (Hk : kube_resolved w t = Some "") by (unfold kube_resolved; rewrite Hp; exact He).
  assert (C : forall name args env, In (EvRun name args env) (trace (fst (run (Test w) t))) ->
              In "--kubeconfig=" args).
  { intros name args env Hin.
    destruct (Test_run_event w t name args env Hin) as (_ & _ & kc & ws & Hk' & _ & _ & _ & ->).
    rewrite Hk in Hk'. injection Hk' as <-.
    unfold spec_ginkgo_args. apply in_or_app. right. cbn. tauto. }
  split; [|split; [|exact C]]; unfold run; rewrite Test_unfold, Hk.
  - destruct (WriteVersionToMetadata w (GitTag w)); [discriminate|].
    destruct (PlainClone w (runDir t) (Repo t)); [discriminate|].
    destruct (shellquote_Split (GinkgoArgs t)); [|discriminate].
    cbv zeta; match goal with |- context [cmd_Run ?a ?b ?c ?d] => destruct (cmd_Run a b c d) end; discriminate.
  - destruct (WriteVersionToMetadata w (GitTag w)); [exact Hp|].
    destruct (PlainClone w (runDir t) (Repo t)); [exact Hp|].
    destruct (shellquote_Split (GinkgoArgs t)); destruct t; reflexivity.
Qed.

(** X6: when Test launches the subprocess, the binary is ginkgoPath and
    Test returns the run's error (wrapped) or success. *)
Theorem Test_run_result (w : World) (t : Tester) (name : string) (args env : list string) :
  In (EvRun name args env) (trace (fst (run (Test w) t))) ->
  name = ginkgoPath t /\
  snd (run (Test w) t) = match cmd_Run w name args env with
                         | Some m => Err (ErrTestRun m)
                         | None => Ok tt
                         end.
Proof.
  intro Hin.
  destruct (Test_run_event w t name args env Hin) as (H1 & H2 & kc & ws & Hk & Hs & -> & -> & ->).
  split; [reflexivity|].
  rewrite (Test_result_after_clone w t H1 H2), Hk, Hs. reflexivity.
Qed.

(** X7: Test succeeds exactly when it launched the subprocess and the
    run succeeded. *)
Theorem Test_success_iff (w : World) (t : Tester) :
  snd (run (Test w) t) = Ok tt <->
  exists name args env, In (EvRun name args env) (trace (fst (run (Test w) t))) /\
                        cmd_Run w name args env = None.
Proof.
  split.
  - unfold run. rewrite Test_unfold. intro H.
    destruct (WriteVersionToMetadata w (GitTag w)); [discriminate H|].
    destruct (PlainClone w (runDir t) (Repo t)); [discriminate H|].
    destruct (kube_resolved w t) as [kc|]; [|discriminate H].
    destruct (shellquote_Split (GinkgoArgs t)) as [ws|]; [|discriminate H].
    cbn [snd] in H.
    destruct (cmd_Run w (ginkgoPath t) (spec_ginkgo_args w t ws kc) (Env t)) eqn:R;
      [discriminate H|].
    exists (ginkgoPath t), (spec_ginkgo_args w t ws kc), (Env t).
    split; [|exact R]. cbn [fst trace]. apply in_or_app. right. right. left. reflexivity.
  - intros (name & args & env & Hin & R).
    destruct (Test_run_event w t name args env Hin) as (H1 & H2 & kc & ws & Hk & Hs & -> & -> & ->).
    rewrite (Test_result_after_clone w t H1 H2), Hk, Hs, R. reflexivity.
Qed.


Lemma Test_error_kind (w : World) (t : Tester) (tr : list event) (e : error) :
  snd (Test w (mkSt t tr)) = Err e -> test_error e = true.
Proof.
  rewrite Test_unfold.
  destruct (WriteVersionToMetadata w (GitTag w)); [intro H; injection H as <-; reflexivity|].
  destruct (PlainClone w (runDir t) (Repo t)); [intro H; injection H as <-; reflexivity|].
  destruct (kube_resolved w t); [|intro H; injection H as <-; reflexivity].
  destruct (shellquote_Split (GinkgoArgs t)); [|intro H; injection H as <-; reflexivity].
  cbv zeta; match goal with |- context [cmd_Run ?a ?b ?c ?d] => destruct (cmd_Run a b c d) end;
    intro H; [injection H as <-; reflexivity | discriminate H].
Qed.

Lemma Test_clone_event (w : World) (t : Tester) (path url : string) :
  In (EvPlainClone path url) (trace (fst (run (Test w) t))) ->
  path = runDir t /\ url = Repo t.
Proof.
  unfold run. rewrite Test_unfold. intro Hin.
  assert (K : forall l, In (EvPlainClone path url) ([EvWriteVersionToMetadata (GitTag w); EvPlainClone (runDir t) (Repo t)] ++ l)%list ->
              ~ In (EvPlainClone path url) l -> path = runDir t /\ url = Repo t).
  { intros l H Hl. cbn in H. destruct H as [H|[H|H]]; [discriminate H | injection H as <- <-; auto | contradiction]. }
  destruct (WriteVersionToMetadata w (GitTag w)); [cbn in Hin; destruct Hin as [H|H]; [discriminate H|contradiction]|].
  cbn zeta in Hin.
  destruct (PlainClone w (runDir t) (Repo t)); [apply (K []); [exact Hin | intros []]|].
  destruct (String.eqb (kubeconfigPath t) ""); destruct (kube_resolved w t);
    try destruct (shellquote_Split (GinkgoArgs t));
    repeat rewrite <- app_assoc in Hin; cbn [app] in Hin;
    (eapply K; [exact Hin|]); intro H; no_run H.
Qed.

Lemma find_none_existsb {A} (p : A -> bool) (l : list A) :
  existsb p l = false -> find p l = None.
Proof.
  induction l as [|a l IH]; cbn; [reflexivity|].
  destruct (p a); [discriminate|]. exact IH.
Qed.

Lemma go_pflags_named (gf : list goflag) (n : string) :
  defined tester_flags n = false ->
  existsb (fun f => String.eqb (flag_name f) n) (go_pflags gf)
  = existsb (fun g => String.eqb (go_name g) n) gf.
Proof.
  intro Hn. induction gf as [|g gf IH]; [reflexivity|].
  unfold go_pflags in *. cbn [filter].
  destruct (defined tester_flags (go_name g)) eqn:D; cbn [negb map existsb flag_name].
  - rewrite IH. destruct (String.eqb_spec (go_name g) n) as [E|E]; [|reflexivity].
    rewrite E in D. congruence.
  - rewrite IH. reflexivity.
Qed.

Lemma single_h (s : string) :
  match (match list_ascii_of_string s with [c] => Some c | _ => None end) with
  | Some c => (c =? "h")%char | None => false end = String.eqb s "h".
Proof.
  destruct s as [|c [|c' s']]; cbn; [reflexivity| |].
  - destruct (c =? "h")%char; reflexivity.
  - destruct (c =? "h")%char; reflexivity.
Qed.

Lemma go_pflags_short_h (gf : list goflag) :
  existsb (fun f => match flag_shorthand f with Some c => (c =? "h")%char | None => false end)
    (go_pflags gf)
  = existsb (fun g => String.eqb (go_name g) "h") gf.
Proof.
  induction gf as [|g gf IH]; [reflexivity|].
  unfold go_pflags in *. cbn [filter].
  destruct (defined tester_flags (go_name g)) eqn:D; cbn [negb map existsb flag_shorthand].
  - rewrite IH. destruct (String.eqb_spec (go_name g) "h") as [E|E];
      [rewrite E in D; discriminate D | reflexivity].
  - rewrite IH, single_h. reflexivity.
Qed.


Lemma help_redefined_clash (gf : list goflag) :
  help_redefined gf = existsb clashes_with_help gf.
Proof.
  unfold help_redefined, defined. rewrite existsb_app.
  rewrite go_pflags_named by reflexivity. rewrite go_pflags_short_h.
  cbn [existsb tester_flags flag_name String.eqb]. cbn.
  induction gf as [|g gf IH]; [reflexivity|]. cbn [existsb]. unfold clashes_with_help at 1.
  destruct (String.eqb (go_name g) "help"), (String.eqb (go_name g) "h"); cbn; try reflexivity.
  - destruct (existsb (fun g0 => String.eqb (go_name g0) "help") gf); reflexivity.
  - rewrite <- IH. destruct (existsb (fun g0 => String.eqb (go_name g0) "help") gf),
      (existsb (fun g0 => String.eqb (go_name g0) "h") gf); reflexivity.
Qed.

Lemma Execute_errors (PD : string -> option Z) (csv : string -> option (list string))
    (gf : list goflag) (eh : ErrorHandling) (w : World) (t : Tester) (tr : list event) (e : error) :
  snd (Execute PD csv gf eh w (mkSt t tr)) = Err e ->
  (help_redefined gf = true /\ e = ErrFlagRedefined) \/
  (help_redefined gf = false /\ exists ps pe,
     parseArgs PD csv gf (os_Args w) (mkPstate t false false) = (ps, Some pe) /\
     e = match eh with ContinueOnError => ErrParseFlags pe | ExitOnError => ErrExit 2 end) \/
  (help_redefined gf = false /\ ((exists m, e = ErrRunDir m) \/ test_error e = true)).
Proof.
  rewrite Execute_unfold.
  destruct (help_redefined gf) eqn:Hr.
  { intro H; injection H as <-. left; split; reflexivity. }
  destruct (parseArgs PD csv gf (os_Args w) (mkPstate t false false)) as [ps [pe|]] eqn:Hp.
  { intro H. right; left. split; [reflexivity|]. exists ps, pe. split; [reflexivity|].
    destruct eh; injection H as <-; reflexivity. }
  destruct (phelp ps); [discriminate|].
  unfold bind. rewrite initKubetest2Info_unfold.
  intro H. right; right. split; [reflexivity|].
  destruct (LookupEnv w "KUBETEST2_RUN_DIR");
    [|destruct (Getwd w); [|injection H as <-; left; eexists; reflexivity]];
    right; eapply Test_error_kind; exact H.
Qed.


Lemma Execute_reaches_Test (PD : string -> option Z) (csv : string -> option (list string))
    (gf : list goflag) (eh : ErrorHandling) (w : World) (t : Tester) (ev : event) :
  In ev (trace (fst (run (Execute PD csv gf eh w) t))) ->
  is_clone ev || is_run ev = true ->
  exists ps dir pre,
    help_redefined gf = false /\
    parseArgs PD csv gf (os_Args w) (mkPstate t false false) = (ps, None) /\ phelp ps = false /\
    ((LookupEnv w "KUBETEST2_RUN_DIR" = Some dir /\ pre = [EvLookupEnv "KUBETEST2_RUN_DIR"]) \/
     (LookupEnv w "KUBETEST2_RUN_DIR" = None /\ Getwd w = Ok dir /\
      pre = [EvLookupEnv "KUBETEST2_RUN_DIR"; EvGetwd])) /\
    trace (fst (run (Execute PD csv gf eh w) t))
      = (pre ++ trace (fst (run (Test w) (set_runDir dir (ptester ps)))))%list /\
    In ev (trace (fst (run (Test w) (set_runDir dir (ptester ps))))).
Proof.
  intros Hin Hk. unfold run in *. rewrite Execute_unfold in *.
  assert (Hnot : forall l, In ev l -> forallb (fun e => negb (is_clone e || is_run e)) l = true -> False).
  { intros l Hl Hf. rewrite forallb_forall in Hf. specialize (Hf ev Hl). rewrite Hk in Hf. discriminate. }
  destruct (help_redefined gf) eqn:Hr; [exfalso; eapply Hnot; [exact Hin|reflexivity]|].
  destruct (parseArgs PD csv gf (os_Args w) (mkPstate t false false)) as [ps [pe|]] eqn:Hp.
  { destruct eh; [contradiction|]. exfalso; eapply Hnot; [exact Hin|reflexivity]. }
  destruct (phelp ps) eqn:Hh; [exfalso; eapply Hnot; [exact Hin|reflexivity]|].
  unfold bind in *. rewrite initKubetest2Info_unfold in *.
  destruct (LookupEnv w "KUBETEST2_RUN_DIR") as [dir|] eqn:E.
  - rewrite Test_trace_app in *. exists ps, dir, [EvLookupEnv "KUBETEST2_RUN_DIR"].
    repeat split; auto.
    apply in_app_or in Hin. destruct Hin as [Hin|Hin]; [exfalso; eapply Hnot; [exact Hin|reflexivity] | exact Hin].
  - destruct (Getwd w) as [dir|m] eqn:G; [|exfalso; eapply Hnot; [exact Hin|reflexivity]].
    rewrite Test_trace_app in *. exists ps, dir, [EvLookupEnv "KUBETEST2_RUN_DIR"; EvGetwd].
    repeat split; auto.
    apply in_app_or in Hin. destruct Hin as [Hin|Hin]; [exfalso; eapply Hnot; [exact Hin|reflexivity] | exact Hin].
Qed.

Lemma Test_launch_trace (w : World) (t : Tester) (name : string) (args env : list string) :
  In (EvRun name args env) (trace (fst (run (Test w) t))) ->
  trace (fst (run (Test w) t)) =
  ([EvWriteVersionToMetadata (GitTag w); EvPlainClone (runDir t) (Repo t)]
   ++ (if String.eqb (kubeconfigPath t) "" then [EvLookupEnv "KUBECONFIG"] else [])
   ++ [EvInfoLog name args; EvRun name args env])%list.
Proof.
  intro Hin.
  destruct (Test_run_event w t name args env Hin) as (H1 & H2 & kc & ws & Hk & Hs & -> & -> & ->).
  unfold run. rewrite Test_unfold, H1, H2, Hk, Hs.
  destruct (String.eqb (kubeconfigPath t) ""); cbn; reflexivity.
Qed.

(** X8: every clone Execute makes is of Repo as parsing left it, into
    KUBETEST2_RUN_DIR when that is set and into the working directory
    otherwise; it happens only when parsing succeeded without --help. *)
Theorem Execute_clone_target (PD : string -> option Z) (csv : string -> option (list string))
    (gf : list goflag) (eh : ErrorHandling) (w : World) (t : Tester) (path url : string) :
  In (EvPlainClone path url) (trace (fst (run (Execute PD csv gf eh w) t))) ->
  exists ps, parseArgs PD csv gf (os_Args w) (mkPstate t false false) = (ps, None) /\
    phelp ps = false /\ url = Repo (ptester ps) /\
    (LookupEnv w "KUBETEST2_RUN_DIR" = Some path \/
     (LookupEnv w "KUBETEST2_RUN_DIR" = None /\ Getwd w = Ok path)).
Proof.
  intro Hin.
  destruct (Execute_reaches_Test PD csv gf eh w t _ Hin eq_refl)
    as (ps & dir & pre & _ & Hp & Hh & Hd & _ & HT).
  destruct (Test_clone_event w _ path url HT) as [-> ->].
  exists ps. split; [exact Hp|]. split; [exact Hh|].
  destruct (ptester ps); cbn. split; [reflexivity|].
  destruct Hd as [[A _]|[A [B _]]]; [left; exact A | right; split; assumption].
Qed.

(** X9: when Execute launches the subprocess, its whole interaction is,
    in order: the KUBETEST2_RUN_DIR lookup (then Getwd if unset), the
    metadata write, one clone, the KUBECONFIG lookup if needed, the klog
    line naming the binary and its arguments, and the launch as the last
    step. *)
Theorem Execute_launch_sequence (PD : string -> option Z) (csv : string -> option (list string))
    (gf : list goflag) (eh : ErrorHandling) (w : World) (t : Tester)
    (name : string) (args env : list string) :
  In (EvRun name args env) (trace (fst (run (Execute PD csv gf eh w) t))) ->
  exists pre path url mid,
    (pre = [EvLookupEnv "KUBETEST2_RUN_DIR"] \/ pre = [EvLookupEnv "KUBETEST2_RUN_DIR"; EvGetwd]) /\
    (mid = [] \/ mid = [EvLookupEnv "KUBECONFIG"]) /\
    trace (fst (run (Execute PD csv gf eh w) t))
    = (pre ++ [EvWriteVersionToMetadata (GitTag w); EvPlainClone path url] ++ mid
       ++ [EvInfoLog name args; EvRun name args env])%list.
Proof.
  intro Hin.
  destruct (Execute_reaches_Test PD csv gf eh w t _ Hin eq_refl)
    as (ps & dir & pre & _ & _ & _ & Hd & Htr & HT).
  rewrite Htr, (Test_launch_trace w _ name args env HT).
  eexists pre, _, _, (if String.eqb (kubeconfigPath (set_runDir dir (ptester ps))) ""
                      then [EvLookupEnv "KUBECONFIG"] else []).
  split; [destruct Hd as [[_ ->]|(_ & _ & ->)]; [left|right]; reflexivity|].
  split; [destruct (String.eqb _ _); [right|left]; reflexivity|].
  reflexivity.
Qed.

(** X10: when flag parsing fails (and no go flag clashes with help),
    Execute makes no lookup, clone or launch; the receiver keeps what
    parsing wrote before the error; the failure is returned, or printed
    with exit status 2 under ExitOnError. *)
Theorem Execute_parse_failure (PD : string -> option Z) (csv : string -> option (list string))
    (gf : list goflag) (eh : ErrorHandling) (w : World) (t : Tester) (ps : pstate) (e : parse_error) :
  existsb clashes_with_help gf = false ->
  parseArgs PD csv gf (os_Args w) (mkPstate t false false) = (ps, Some e) ->
  tester (fst (run (Execute PD csv gf eh w) t)) = ptester ps /\
  trace (fst (run (Execute PD csv gf eh w) t))
    = match eh with ContinueOnError => [] | ExitOnError => [EvPrintError e; EvExit 2] end /\
  snd (run (Execute PD csv gf eh w) t)
    = Err (match eh with ContinueOnError => ErrParseFlags e | ExitOnError => ErrExit 2 end).
Proof.
  intros Hc Hp. rewrite <- help_redefined_clash in Hc.
  unfold run. rewrite Execute_unfold, Hc, Hp.
  destruct eh; repeat split.
Qed.

Lemma defined_help (gf : list goflag) :
  defined (tester_flags ++ go_pflags gf) "help" = existsb (fun g => String.eqb (go_name g) "help") gf.
Proof.
  unfold defined at 1. rewrite existsb_app.
  change (existsb (fun f => String.eqb (flag_name f) "help") tester_flags) with false.
  cbn [orb]. unfold go_pflags. induction gf as [|g gf IH]; [reflexivity|].
  cbn [filter]. destruct (negb (defined tester_flags (go_name g))) eqn:D.
  - cbn [map existsb flag_name]. rewrite IH. reflexivity.
  - cbn [existsb]. destruct (String.eqb_spec (go_name g) "help") as [E|E];
      [rewrite E in D; discriminate D|].
    exact IH.
Qed.

(** X11: Execute fails at flag set construction, the receiver untouched,
    exactly when flag.CommandLine holds a flag named help or h; its one
    interaction is pflag's report of the redefinition, on the name help
    when a go flag has that name and on the shorthand h otherwise. *)
Theorem Execute_help_clash (PD : string -> option Z) (csv : string -> option (list string))
    (gf : list goflag) (eh : ErrorHandling) (w : World) (t : Tester) :
  run (Execute PD csv gf eh w) t
    = (mkSt t [EvPrintRedefinition (negb (existsb (fun g => String.eqb (go_name g) "help") gf))],
       Err ErrFlagRedefined) <->
  existsb clashes_with_help gf = true.
Proof.
  rewrite <- help_redefined_clash. split.
  - intro H.
    assert (He : snd (Execute PD csv gf eh w (mkSt t [])) = Err ErrFlagRedefined)
      by (unfold run in H; rewrite H; reflexivity).
    destruct (Execute_errors PD csv gf eh w t [] _ He)
      as [[Hr _]|[(_ & ps & pe & _ & E)|(_ & [[m E]|E])]]; [exact Hr| | |].
    + destruct eh; discriminate E.
    + discriminate E.
    + discriminate E.
  - intro Hr. unfold run. rewrite Execute_unfold, Hr, defined_help. reflexivity.
Qed.


Lemma classify_first_not_dash (p : string) :
  first_not_dash p -> classify (list_ascii_of_string p) = ArgPositional.
Proof.
  unfold first_not_dash. intro H.
  destruct p as [|c [|c' r]]; cbn; [reflexivity|reflexivity|].
  destruct (Ascii.eqb_spec c "-"); [subst; contradiction H; reflexivity | reflexivity].
Qed.

Lemma find_app_none {A} (p : A -> bool) (l1 l2 : list A) :
  find p l1 = None -> find p (l1 ++ l2) = find p l2.
Proof.
  induction l1 as [|a l1 IH]; cbn; [reflexivity|].
  destruct (p a); [discriminate|]. exact IH.
Qed.

Lemma existsb_ext_eq {A} (p q : A -> bool) (l : list A) :
  (forall x, p x = q x) -> existsb p l = existsb q l.
Proof. intro E. induction l as [|a l IH]; cbn; [reflexivity|]. rewrite E, IH. reflexivity. Qed.

Lemma lookup_long_help (gf : list goflag) :
  help_redefined gf = false -> lookup_long gf "help" = Some (mkPflag "help" (Some "h"%char) THelp).
Proof.
  unfold help_redefined, lookup_long, flag_table. intro H.
  apply orb_false_elim in H as [H _]. unfold defined in H.
  rewrite existsb_app in H. apply orb_false_elim in H as [_ H].
  rewrite find_app_none by reflexivity.
  rewrite find_app_none by (apply find_none_existsb; exact H). reflexivity.
Qed.

Lemma lookup_short_h (gf : list goflag) :
  help_redefined gf = false -> lookup_short gf "h"%char = Some (mkPflag "help" (Some "h"%char) THelp).
Proof.
  unfold help_redefined, lookup_short, flag_table. intro H.
  apply orb_false_elim in H as [_ H].
  rewrite find_app_none by reflexivity.
  rewrite find_app_none.
  - reflexivity.
  - apply find_none_existsb. etransitivity; [|exact H]. apply existsb_ext_eq. intros [n [c|] tg]; cbn; [|reflexivity].
    destruct (Ascii.eqb_spec c "h"); destruct (Ascii.eqb_spec "h" c); congruence.
Qed.

(** X12: a command line whose only flag is -h or --help (after a program
    name not starting with '-') prints the flag documentation and
    succeeds, for any go flag set that does not clash with help. *)
Theorem Execute_help_flag (PD : string -> option Z) (csv : string -> option (list string))
    (gf : list goflag) (eh : ErrorHandling) (w : World) (t : Tester) (p a : string) :
  existsb clashes_with_help gf = false ->
  os_Args w = [p; a] -> first_not_dash p -> a = "-h" \/ a = "--help" ->
  run (Execute PD csv gf eh w) t = (mkSt t [EvPrintDefaults], Ok tt).
Proof.
  intros Hc Ha Hp Hhelp. rewrite <- help_redefined_clash in Hc.
  unfold run. rewrite Execute_unfold, Hc, Ha.
  cbn [parseArgs]. rewrite (classify_first_not_dash p Hp).
  destruct Hhelp as [->| ->]; cbn -[lookup_short lookup_long].
  - rewrite (lookup_short_h gf Hc). reflexivity.
  - rewrite (lookup_long_help gf Hc). reflexivity.
Qed.

(** X13: with no flags, Execute from NewDefaultTester clones the empty URL
    and launches the empty binary path with the vector --nodes=1, the empty suite path, --, the kubeconfig, empty
    skip and focus, the report dir and --ginkgo.timeout=24h0m0s. *)
Theorem Execute_defaults (PD : string -> option Z) (csv : string -> option (list string))
    (gf : list goflag) (eh : ErrorHandling) (w : World) (p : string) :
  os_Args w = [p] -> first_not_dash p ->
  (forall path url,
     In (EvPlainClone path url) (trace (fst (run (Execute PD csv gf eh w) NewDefaultTester))) ->
     url = "") /\
  (forall name args env,
     In (EvRun name args env) (trace (fst (run (Execute PD csv gf eh w) NewDefaultTester))) ->
     name = "" /\
     exists kc, args = ["--nodes=1"; ""; "--"; "--kubeconfig=" ++ kc; "--ginkgo.skip=";
                        "--ginkgo.focus="; "--report-dir=" ++ artifacts_BaseDir w;
                        "--ginkgo.timeout=24h0m0s"]).
Proof.
  intros Ha Hp.
  assert (Hparse : parseArgs PD csv gf (os_Args w) (mkPstate NewDefaultTester false false)
                   = (mkPstate NewDefaultTester false false, None)).
  { rewrite Ha. cbn [parseArgs]. rewrite (classify_first_not_dash p Hp). reflexivity. }
  split.
  - intros path url Hin.
    destruct (Execute_reaches_Test PD csv gf eh w _ _ Hin eq_refl)
      as (ps & dir & pre & _ & Hps & _ & _ & _ & HT).
    rewrite Hparse in Hps. injection Hps as <-.
    destruct (Test_clone_event w _ path url HT) as [_ ->]. reflexivity.
  - intros name args env Hin.
    destruct (Execute_reaches_Test PD csv gf eh w _ _ Hin eq_refl)
      as (ps & dir & pre & _ & Hps & _ & _ & _ & HT).
    rewrite Hparse in Hps. injection Hps as <-.
    destruct (Test_run_event w _ name args env HT) as (_ & _ & kc & ws & _ & Hs & -> & -> & ->).
    cbn in Hs. injection Hs as <-.
    split; [reflexivity|]. exists kc. reflexivity.
Qed.

(** X14: Main exits with status 0 exactly when Execute succeeds, with 2
    exactly when a go flag clashes with help or parsing fails under
    ExitOnError, and with 255 otherwise.  After Execute's interaction it
    adds the runtime's panic report and exit 2 on the clash, klog's fatal
    line and exit 255 on any other returned error, and nothing else; a
    nonzero status is the last event of the process. *)
Theorem Main_exit_status (PD : string -> option Z) (csv : string -> option (list string))
    (gf : list goflag) (eh : ErrorHandling) (w : World) :
  let c := exit_code (snd (Main PD csv gf eh w)) in
  (c = 0 <-> snd (run (Execute PD csv gf eh w) NewDefaultTester) = Ok tt) /\
  (c = 2 <-> existsb clashes_with_help gf = true \/
             (eh = ExitOnError /\ exists ps e,
                parseArgs PD csv gf (os_Args w) (mkPstate NewDefaultTester false false) = (ps, Some e))) /\
  (c = 0 \/ c = 2 \/ c = 255) /\
  trace (fst (Main PD csv gf eh w)) =
    (trace (fst (run (Execute PD csv gf eh w) NewDefaultTester)) ++
     match snd (Main PD csv gf eh w) with
     | MainPanic => [EvPanic; EvExit 2]
     | MainFatal e => [EvFatal e; EvExit 255]
     | _ => []
     end)%list /\
  (c <> 0 -> exists pre, trace (fst (Main PD csv gf eh w)) = (pre ++ [EvExit c])%list).
Proof.
  rewrite <- help_redefined_clash.
  unfold Main, run.
  pose proof (Execute_errors PD csv gf eh w NewDefaultTester []) as EE.
  destruct (Execute PD csv gf eh w (mkSt NewDefaultTester [])) as [s r] eqn:Ex.
  cbn [snd fst] in *.
  assert (Hr2 : help_redefined gf = true -> r = Err ErrFlagRedefined).
  { intro Hr. rewrite Execute_unfold, Hr in Ex. injection Ex as _ <-. reflexivity. }
  assert (Hp2 : forall ps e, help_redefined gf = false ->
                parseArgs PD csv gf (os_Args w) (mkPstate NewDefaultTester false false) = (ps, Some e) ->
                r = Err (match eh with ContinueOnError => ErrParseFlags e | ExitOnError => ErrExit 2 end)).
  { intros ps e Hr Hp. rewrite Execute_unfold, Hr, Hp in Ex. destruct eh; injection Ex as _ <-; reflexivity. }
  assert (Hx : forall ps e, help_redefined gf = false -> eh = ExitOnError ->
                parseArgs PD csv gf (os_Args w) (mkPstate NewDefaultTester false false) = (ps, Some e) ->
                trace s = [EvPrintError e; EvExit 2]).
  { intros ps e Hr -> Hp. rewrite Execute_unfold, Hr, Hp in Ex. injection Ex as <- _. reflexivity. }
  destruct r as [[]|e].
  - cbn. rewrite app_nil_r.
    split; [split; reflexivity|].
    split; [|split; [left; reflexivity | split; [reflexivity | intro C; exfalso; apply C; reflexivity]]].
    split; [discriminate|]. intros [Hr|(-> & ps & e & Hp)].
    + discriminate (Hr2 Hr).
    + destruct (help_redefined gf) eqn:Hr; [discriminate (Hr2 eq_refl)|].
      discriminate (Hp2 ps e eq_refl Hp).
  - destruct (EE e eq_refl) as [[Hr ->]|[(Hr & ps & pe & Hp & ->)|(Hr & [[m ->]|Ht])]].
    + cbn. split; [split; discriminate|]. split; [split; [intros _; left; exact Hr | reflexivity]|].
      split; [right; left; reflexivity | split; [reflexivity | ends_exit]].
    + destruct eh; cbn.
      * split; [split; discriminate|].
        split; [|split; [right; right; reflexivity | split; [reflexivity | ends_exit]]].
        split; [discriminate|]. intros [H|[H _]]; [congruence | discriminate H].
      * rewrite app_nil_r. split; [split; discriminate|].
        split; [|split; [right; left; reflexivity | split; [reflexivity|]]].
        -- split; [intros _; right; split; [reflexivity | exists ps, pe; exact Hp] | reflexivity].
        -- intros _. exists [EvPrintError pe]. exact (Hx ps pe Hr eq_refl Hp).
    + cbn. split; [split; discriminate|].
      split; [|split; [right; right; reflexivity | split; [reflexivity | ends_exit]]].
      split; [discriminate|]. intros [H|(-> & ps & pe & Hp)]; [congruence|].
      discriminate (Hp2 ps pe Hr Hp).
    + destruct e; try discriminate Ht; cbn;
      (split; [split; discriminate|]);
      (split; [|split; [right; right; reflexivity | split; [reflexivity | ends_exit]]]);
      (split; [discriminate|]); intros [H|(-> & ps & pe & Hp)]; try congruence;
      discriminate (Hp2 ps pe Hr Hp).
Qed.

(** X15: for each of the eight tester flags, --name value parses exactly
    like --name=value, whatever the value (even one starting with '-'). *)
Theorem parseArgs_separate_value (PD : string -> option Z) (csv : string -> option (list string))
    (gf : list goflag) (n v : string) (rest : list string) (ps : pstate) :
  In n ["flake-attempts"; "ginkgo-args"; "parallel"; "skip-regex"; "focus-regex";
        "timeout"; "env"; "repo"] ->
  parseArgs PD csv gf (("--" ++ n) :: v :: rest) ps
  = parseArgs PD csv gf (("--" ++ n ++ "=" ++ v) :: rest) ps.
Proof.
  intro Hn.
  repeat (destruct Hn as [<-|Hn]; [cbn -[set_flag]; rewrite string_of_list_ascii_of_string; reflexivity|]).
  destruct Hn.
Qed.

Lemma parseArgs_env_step (PD : string -> option Z) (csv : string -> option (list string))
    (gf : list goflag) (v : string) (l : list string) (rest : list string) (ps : pstate) :
  csv v = Some l ->
  parseArgs PD csv gf (("--env=" ++ v) :: rest) ps
  = parseArgs PD csv gf rest
      (mkPstate (set_Env (if penv_changed ps then Env (ptester ps) ++ l else l) (ptester ps))
                (phelp ps) true).
Proof.
  intro Hv. cbn [parseArgs]. cbn -[set_value parseArgs]. rewrite string_of_list_ascii_of_string.
  unfold set_flag. cbn [set_value flag_target_of]. rewrite Hv. reflexivity.
Qed.

(** X16: repeated --env flags accumulate: the values' lists are
    concatenated in order, and the first occurrence drops the value Env
    held before parsing. *)
Theorem parseArgs_env_accumulates (PD : string -> option Z) (csv : string -> option (list string))
    (gf : list goflag) (vs : list string) (ls : list (list string)) (ps : pstate) :
  vs <> [] -> map csv vs = map Some ls ->
  parseArgs PD csv gf (map (fun v => "--env=" ++ v) vs) ps
  = (mkPstate (set_Env ((if penv_changed ps then Env (ptester ps) else []) ++ concat ls)
                       (ptester ps)) (phelp ps) true, None).
Proof.
  revert ls ps. induction vs as [|v vs IH]; intros ls ps Hne Hm; [contradiction|].
  destruct ls as [|l ls]; [discriminate Hm|]. injection Hm as Hv Hm.
  cbn [map]. rewrite (parseArgs_env_step PD csv gf v l _ ps Hv).
  destruct vs as [|v' vs'].
  - destruct ls; [|discriminate Hm]. cbn. rewrite app_nil_r.
    destruct ps as [[] h c]; destruct c; reflexivity.
  - rewrite (IH ls); [|discriminate|exact Hm]. cbn [concat penv_changed ptester phelp].
    destruct ps as [[] h c]; destruct c; cbn; rewrite ?app_assoc; reflexivity.
Qed.

(** X17: repeated --ginkgo-args flags do not accumulate: the last one
    wins. *)
Theorem parseArgs_ginkgo_args_last (PD : string -> option Z) (csv : string -> option (list string))
    (gf : list goflag) (vs : list string) (ps : pstate) :
  vs <> [] ->
  parseArgs PD csv gf (map (fun v => "--ginkgo-args=" ++ v) vs) ps
  = (with_tester ps (set_GinkgoArgs (last vs "")), None).
Proof.
  revert ps. induction vs as [|v vs IH]; intros ps Hne; [contradiction|].
  cbn [map parseArgs]. cbn -[parseArgs map last]. rewrite string_of_list_ascii_of_string.
  destruct vs as [|v' vs'].
  - reflexivity.
  - rewrite IH by discriminate. destruct ps as [[] h c]; reflexivity.
Qed.

Lemma fmtFrac_aux_whole (p : nat) (k : Z) :
  fmtFrac_aux p (k * 10 ^ Z.of_nat p) false "" = (false, "", k).
Proof.
  revert k. induction p as [|p IH]; intro k.
  - cbn. f_equal. lia.
  - cbn [fmtFrac_aux].
    replace (k * 10 ^ Z.of_nat (S p)) with ((k * 10 ^ Z.of_nat p) * 10)
      by (rewrite Nat2Z.inj_succ, Z.pow_succ_r by lia; ring).
    rewrite Z.mod_mul, Z.div_mul by lia. cbn [Z.eqb negb orb]. apply IH.
Qed.

Lemma Duration_String_hours (n : Z) :
  0 < n -> Duration_String (n * Hour) = Itoa n ++ "h0m0s".
Proof.
  intro Hn. unfold Duration_String.
  replace (Z.abs (n * Hour)) with ((n * 3600) * 10 ^ Z.of_nat 9)
    by (unfold Hour, Minute, Second, Millisecond, Microsecond, Nanosecond; cbn; lia).
  replace ((n * 3600) * 10 ^ Z.of_nat 9 <? Second) with false
    by (symmetry; apply Z.ltb_ge; unfold Second, Millisecond, Microsecond, Nanosecond; cbn; lia).
  unfold fmtFrac. rewrite fmtFrac_aux_whole.
  replace ((n * 3600) mod 60) with 0 by (symmetry; replace (n * 3600) with ((n * 60) * 60) by ring;
                                         apply Z.mod_mul; lia).
  replace (n * 3600 / 60) with (n * 60) by (replace (n * 3600) with ((n * 60) * 60) by ring;
                                           symmetry; apply Z.div_mul; lia).
  replace (0 <? n * 60) with true by (symmetry; apply Z.ltb_lt; lia).
  rewrite Z.mod_mul, Z.div_mul by lia.
  replace (0 <? n) with true by (symmetry; apply Z.ltb_lt; lia).
  replace (n * Hour <? 0) with false
    by (symmetry; apply Z.ltb_ge; unfold Hour, Minute, Second, Millisecond, Microsecond, Nanosecond; lia).
  unfold Itoa. replace (n <? 0) with false by (symmetry; apply Z.ltb_ge; lia).
  reflexivity.
Qed.

Lemma last_app_cons {A} (l1 l2 : list A) (a d : A) :
  last (app l1 (a :: l2)) d = last (a :: l2) d.
Proof.
  induction l1 as [|b l1 IH]; [reflexivity|].
  cbn [app]. rewrite <- IH. destruct (app l1 (a :: l2)) eqn:E; [destruct l1; discriminate|reflexivity].
Qed.

(** X18: a timeout of n whole hours (n > 0) reaches ginkgo as the last
    argument --ginkgo.timeout=<n>h0m0s. *)
Theorem Test_timeout_hours (w : World) (t : Tester) (n : Z)
    (name : string) (args env : list string) :
  0 < n -> Timeout t = n * Hour ->
  In (EvRun name args env) (trace (fst (run (Test w) t))) ->
  last args "" = "--ginkgo.timeout=" ++ Itoa n ++ "h0m0s".
Proof.
  intros Hn Ht Hin.
  destruct (Test_run_event w t name args env Hin) as (_ & _ & kc & ws & _ & _ & _ & _ & ->).
  unfold spec_ginkgo_args. rewrite last_app_cons. cbn [last].
  rewrite Ht, Duration_String_hours by exact Hn. reflexivity.
Qed.

Lemma digit_char_props (d : Z) :
  0 <= d < 10 ->
  digit_value (digit_char d) = Some d /\ (digit_char d =? "_")%char = false /\
  (digit_char d =? "+")%char = false /\ (digit_char d =? "-")%char = false /\
  ((digit_char d =? "0")%char = true <-> d = 0).
Proof.
  intro H.
  assert (d = 0 \/ d = 1 \/ d = 2 \/ d = 3 \/ d = 4 \/ d = 5 \/ d = 6 \/ d = 7 \/ d = 8 \/ d = 9)
    as Hd by lia.
  repeat (destruct Hd as [->|Hd]; [repeat split; try reflexivity; try discriminate; try lia|]);
  subst; repeat split; try reflexivity; try discriminate; lia.
Qed.

(** The digits utoa_aux prepends, read back by the digit loop of ParseUint. *)
Lemma utoa_aux_digits (f : nat) :
  forall n acc a u, 0 <= n < 10 ^ Z.of_nat f -> 0 <= a ->
  exists k, 0 <= k /\
  parse_digits 10 (list_ascii_of_string (utoa_aux f n acc)) a u
  = parse_digits 10 (list_ascii_of_string acc) (a * 10 ^ k + n) u.
Proof.
  induction f as [|f IH]; intros n acc a u Hn Ha.
  - cbn in Hn. exists 0. split; [lia|]. replace n with 0 by lia. cbn. f_equal. lia.
  - cbn [utoa_aux].
    assert (Hm : 0 <= n mod 10 < 10) by (apply Z.mod_pos_bound; lia).
    destruct (digit_char_props (n mod 10) Hm) as (Hv & Hu & _).
    destruct (n <? 10) eqn:Hlt.
    + apply Z.ltb_lt in Hlt. exists 1. split; [lia|].
      cbn [list_ascii_of_string parse_digits]. rewrite Hu, Hv.
      replace (10 <=? n mod 10) with false by (symmetry; apply Z.leb_gt; lia).
      rewrite Z.mod_small by lia. f_equal; lia.
    + apply Z.ltb_ge in Hlt.
      assert (Hq : 0 <= n / 10 < 10 ^ Z.of_nat f).
      { split; [apply Z.div_pos; lia|].
        apply Z.div_lt_upper_bound; [lia|].
        rewrite Nat2Z.inj_succ, Z.pow_succ_r in Hn by lia. lia. }
      destruct (IH (n / 10) (String (digit_char (n mod 10)) acc) a u Hq Ha) as (k & Hk & E).
      exists (k + 1). split; [lia|]. rewrite E.
      cbn [list_ascii_of_string parse_digits]. rewrite Hu, Hv.
      replace (10 <=? n mod 10) with false by (symmetry; apply Z.leb_gt; lia).
      f_equal. rewrite Z.pow_add_r by lia.
      pose proof (Z.div_mod n 10 ltac:(lia)). lia.
Qed.

(** The first digit utoa_aux writes is the leading one. *)
Lemma utoa_aux_head (f : nat) :
  forall n acc, 0 <= n < 10 ^ Z.of_nat (S f) ->
  exists c r, list_ascii_of_string (utoa_aux (S f) n acc) = c :: r /\
  exists d, 0 <= d < 10 /\ c = digit_char d /\ (1 <= n -> 1 <= d).
Proof.
  induction f as [|f IH]; intros n acc Hn; cbn [utoa_aux].
  - assert (Hlt : n < 10) by (cbn in Hn; lia).
    replace (n <? 10) with true by (symmetry; apply Z.ltb_lt; lia).
    eexists _, _. split; [reflexivity|].
    exists (n mod 10). rewrite Z.mod_small by lia. split; [lia|]. split; [reflexivity|]. lia.
  - destruct (n <? 10) eqn:Hlt.
    + apply Z.ltb_lt in Hlt. eexists _, _. split; [reflexivity|].
      exists (n mod 10). rewrite Z.mod_small by lia. split; [lia|]. split; [reflexivity|]. lia.
    + apply Z.ltb_ge in Hlt.
      assert (Hq : 0 <= n / 10 < 10 ^ Z.of_nat (S f)).
      { split; [apply Z.div_pos; lia|].
        apply Z.div_lt_upper_bound; [lia|].
        rewrite (Nat2Z.inj_succ (S f)), Z.pow_succ_r in Hn by lia. lia. }
      destruct (IH (n / 10) (String (digit_char (n mod 10)) acc) Hq) as (c & r & E & d & Hd & Hc & H1).
      exists c, r. split; [exact E|]. exists d. split; [exact Hd|]. split; [exact Hc|].
      intros _. apply H1. apply Z.div_le_lower_bound; lia.
Qed.

Lemma utoa_fuel (n : Z) : 0 <= n -> 0 <= n < 10 ^ Z.of_nat (S (Z.to_nat (Z.log2 n))).
Proof.
  intro Hn. split; [exact Hn|].
  destruct (Z.eq_dec n 0) as [->|Hn0]; [cbn; lia|].
  assert (H2 : n < 2 ^ Z.succ (Z.log2 n)) by (apply Z.log2_spec; lia).
  rewrite Nat2Z.inj_succ, Z2Nat.id by (apply Z.log2_nonneg).
  eapply Z.lt_le_trans; [exact H2|].
  apply Z.pow_le_mono_l. split; [lia | lia].
Qed.

Lemma ParseUint0_utoa (n : Z) : 0 <= n <= maxUint64 -> ParseUint0 (list_ascii_of_string (utoa n)) = Some n.
Proof.
  intros Hn. unfold utoa.
  pose proof (utoa_fuel n ltac:(lia)) as Hf.
  destruct (utoa_aux_head _ n "" Hf) as (c & r & E & d & Hd & -> & H1).
  destruct (utoa_aux_digits _ n "" 0 false Hf ltac:(lia)) as (k & Hk & D).
  rewrite E in *. cbn [ParseUint0].
  destruct (digit_char d =? "0")%char eqn:Hc.
  - apply (digit_char_props d Hd) in Hc. subst d.
    destruct (Z.eq_dec n 0) as [->|Hn0]; [|lia].
    cbn in E. injection E; intros; subst; reflexivity.
  - rewrite D. cbn [parse_digits list_ascii_of_string].
    replace (0 * 10 ^ k + n) with n by lia.
    replace (maxUint64 <? n) with false by (symmetry; apply Z.ltb_ge; lia).
    reflexivity.
Qed.

Lemma ParseInt0_Itoa (n : Z) : - 2 ^ 63 <= n < 2 ^ 63 -> ParseInt0 (Itoa n) = Some n.
Proof.
  intro Hn. unfold Itoa, ParseInt0.
  destruct (n <? 0) eqn:Hneg.
  - apply Z.ltb_lt in Hneg.
    change (list_ascii_of_string ("-" ++ utoa (- n)))
      with ("-"%char :: list_ascii_of_string (utoa (- n))).
    cbn -[utoa ParseUint0]. rewrite ParseUint0_utoa by (unfold maxUint64; lia).
    cbn. rewrite (proj2 (Z.ltb_ge _ _)) by lia. f_equal; lia.
  - apply Z.ltb_ge in Hneg.
    pose proof (utoa_fuel n Hneg) as Hf.
    destruct (utoa_aux_head _ n "" Hf) as (c & r & E & d & Hd & -> & _).
    destruct (digit_char_props d Hd) as (_ & _ & Hp & Hm & _).
    unfold utoa. rewrite E, Hp, Hm. rewrite <- E.
    fold (utoa n). rewrite ParseUint0_utoa by (unfold maxUint64; lia).
    replace (2 ^ 63 <=? n) with false by (symmetry; apply Z.leb_gt; lia).
    reflexivity.
Qed.

(** X19: --parallel=N, with N any int64 written in decimal as Itoa
    prints it, sets Parallel to N, so the --nodes token carries the same
    text. *)
Theorem parseArgs_parallel_Itoa (PD : string -> option Z) (csv : string -> option (list string))
    (gf : list goflag) (n : Z) (rest : list string) (ps : pstate) :
  - 2 ^ 63 <= n < 2 ^ 63 ->
  parseArgs PD csv gf (("--parallel=" ++ Itoa n) :: rest) ps
  = parseArgs PD csv gf rest (with_tester ps (set_Parallel n)).
Proof.
  intro Hn. cbn [parseArgs]. cbn -[set_value parseArgs Itoa].
  rewrite string_of_list_ascii_of_string. unfold set_flag. cbn [set_value flag_target_of].
  rewrite ParseInt0_Itoa by exact Hn. reflexivity.
Qed.

Lemma split_loop_blank (f : nat) (l : list ascii) :
  forallb is_splitChar l = true -> split_loop f l = Ok [].
Proof.
  revert l. induction f as [|f IH]; intros [|c l] H; try reflexivity.
  cbn in H. apply andb_prop in H as [Hc Hl].
  cbn [split_loop]. rewrite Hc. apply IH. exact Hl.
Qed.

(** X20: a GinkgoArgs made only of spaces, tabs and newlines adds no word:
    a launch's vector starts with the --nodes token. *)
Theorem Test_blank_ginkgo_args (w : World) (t : Tester) (name : string) (args env : list string) :
  forallb is_splitChar (list_ascii_of_string (GinkgoArgs t)) = true ->
  In (EvRun name args env) (trace (fst (run (Test w) t))) ->
  hd_error args = Some ("--nodes=" ++ Itoa (Parallel t)).
Proof.
  intros Hb Hin.
  destruct (Test_run_event w t name args env Hin) as (_ & _ & kc & ws & _ & Hs & _ & _ & ->).
  unfold shellquote_Split in Hs. rewrite split_loop_blank in Hs by exact Hb.
  injection Hs as <-. reflexivity.
Qed.

(** ** Witnesses and counterexamples

    The concrete runs below use [no_ParseDuration] and [csv_one] for the
    library parsers of --timeout and --env; none of these runs passes
    either flag, so the parsers are never called. *)

Ltac find_in := vm_compute; repeat (first [left; reflexivity | right]).

Lemma Test_argument_vector_witness :
  shellquote_Split (GinkgoArgs (set_GinkgoArgs "--foo bar" NewDefaultTester)) = Ok ["--foo"; "bar"] /\
  In (EvRun "" (["--foo"; "bar"; "--nodes=1"] ++ default_tail)%list [])
     (trace (fst (run (Test (world_kc ["prog"])) (set_GinkgoArgs "--foo bar" NewDefaultTester)))) /\
  exists kc, kube_resolved (world_kc ["prog"]) (set_GinkgoArgs "--foo bar" NewDefaultTester) = Some kc /\
  (["--foo"; "bar"; "--nodes=1"] ++ default_tail)%list = app ["--foo"; "bar"]
    [ "--nodes=" ++ Itoa 1; ""; "--"; "--kubeconfig=" ++ kc; "--ginkgo.skip=" ++ "";
      "--ginkgo.focus=" ++ ""; "--report-dir=" ++ "/artifacts";
      "--ginkgo.timeout=" ++ Duration_String (24 * Hour) ].
Proof.
  assert (H1 : shellquote_Split (GinkgoArgs (set_GinkgoArgs "--foo bar" NewDefaultTester))
               = Ok ["--foo"; "bar"]) by reflexivity.
  assert (H2 : In (EvRun "" (["--foo"; "bar"; "--nodes=1"] ++ default_tail)%list [])
     (trace (fst (run (Test (world_kc ["prog"])) (set_GinkgoArgs "--foo bar" NewDefaultTester)))))
    by find_in.
  exact (conj H1 (conj H2 (Test_argument_vector _ _ _ _ _ _ H1 H2))).
Defined.

Lemma Test_nodes_token_count_witness :
  let t := set_Parallel 4 (set_GinkgoArgs "--foo" NewDefaultTester) in
  Parallel t = 4 /\ shellquote_Split (GinkgoArgs t) = Ok ["--foo"] /\
  In (EvRun "" (["--foo"; "--nodes=4"] ++ default_tail)%list [])
     (trace (fst (run (Test (world_kc ["prog"])) t))) /\
  count_occ string_dec (["--foo"; "--nodes=4"] ++ default_tail)%list "--nodes=4"
  = S (count_occ string_dec ["--foo"] "--nodes=4"
       + (if String.eqb (e2eTestPath t) "--nodes=4" then 1 else 0))%nat.
Proof.
  intro t.
  assert (H1 : Parallel t = 4) by reflexivity.
  assert (H2 : shellquote_Split (GinkgoArgs t) = Ok ["--foo"]) by reflexivity.
  assert (H3 : In (EvRun "" (["--foo"; "--nodes=4"] ++ default_tail)%list [])
     (trace (fst (run (Test (world_kc ["prog"])) t)))) by find_in.
  exact (conj H1 (conj H2 (conj H3 (Test_nodes_token_count _ _ _ _ _ _ H1 H2 H3)))).
Defined.

(** C2: GinkgoArgs "--nodes=4" with Parallel = 4 gives two such tokens. *)
Lemma Test_nodes_token_counterexample :
  let t := set_Parallel 4 (set_GinkgoArgs "--nodes=4" NewDefaultTester) in
  shellquote_Split (GinkgoArgs t) = Ok ["--nodes=4"] /\
  In (EvRun "" (["--nodes=4"; "--nodes=4"] ++ default_tail)%list [])
     (trace (fst (run (Test (world_kc ["prog"])) t))) /\
  count_occ string_dec (["--nodes=4"; "--nodes=4"] ++ default_tail)%list "--nodes=4" = 2%nat.
Proof.
  intro t. split; [reflexivity|]. split; [find_in | vm_compute; reflexivity].
Defined.

Lemma Test_ginkgo_args_error_witness :
  let t := set_GinkgoArgs "'unterminated" NewDefaultTester in
  shellquote_Split (GinkgoArgs t) = Err UnterminatedSingleQuoteError /\
  snd (run (Test (world_kc ["prog"])) t) = Err (ErrGinkgoArgs UnterminatedSingleQuoteError).
Proof.
  intro t.
  assert (H : shellquote_Split (GinkgoArgs t) = Err UnterminatedSingleQuoteError) by reflexivity.
  split; [exact H|].
  destruct (Test_ginkgo_args_error (world_kc ["prog"]) t _ H) as (_ & _ & _ & _ & Hr).
  rewrite Hr. reflexivity.
Defined.

(** C3: a malformed GinkgoArgs, but the clone fails first: Test returns
    the clone error, not the parse error. *)
Lemma Test_ginkgo_args_error_counterexample :
  let t := set_GinkgoArgs "'unterminated" NewDefaultTester in
  shellquote_Split (GinkgoArgs t) = Err UnterminatedSingleQuoteError /\
  snd (run (Test (clone_fails_world [("KUBECONFIG", "/kc")])) t)
  = Err (ErrClone "repository not found").
Proof. split; vm_compute; reflexivity. Defined.

Lemma Test_kubeconfig_missing_witness :
  kubeconfigPath NewDefaultTester = "" /\
  LookupEnv (good_world ["prog"] []) "KUBECONFIG" = None /\
  snd (run (Test (good_world ["prog"] [])) NewDefaultTester) = Err ErrKubeconfigMissing.
Proof.
  assert (H1 : kubeconfigPath NewDefaultTester = "") by reflexivity.
  assert (H2 : LookupEnv (good_world ["prog"] []) "KUBECONFIG" = None) by reflexivity.
  split; [exact H1|]. split; [exact H2|].
  destruct (Test_kubeconfig_missing _ _ H1 H2) as (_ & _ & Hr).
  rewrite Hr. reflexivity.
Defined.

(** C4: KUBECONFIG unset and no path configured, but the clone fails
    first: Test returns the clone error. *)
Lemma Test_kubeconfig_missing_counterexample :
  kubeconfigPath NewDefaultTester = "" /\
  LookupEnv (clone_fails_world []) "KUBECONFIG" = None /\
  snd (run (Test (clone_fails_world [])) NewDefaultTester) = Err (ErrClone "repository not found").
Proof. repeat split; vm_compute; reflexivity. Defined.

Lemma Test_clone_failure_witness :
  PlainClone (clone_fails_world []) (runDir NewDefaultTester) (Repo NewDefaultTester)
    = Some "repository not found" /\
  In (EvPlainClone (runDir NewDefaultTester) (Repo NewDefaultTester))
     (trace (fst (run (Test (clone_fails_world [])) NewDefaultTester))) /\
  snd (run (Test (clone_fails_world [])) NewDefaultTester) = Err (ErrClone "repository not found").
Proof.
  assert (H1 : PlainClone (clone_fails_world []) (runDir NewDefaultTester) (Repo NewDefaultTester)
               = Some "repository not found") by reflexivity.
  assert (H2 : In (EvPlainClone (runDir NewDefaultTester) (Repo NewDefaultTester))
     (trace (fst (run (Test (clone_fails_world [])) NewDefaultTester)))) by find_in.
  split; [exact H1|]. split; [exact H2|].
  exact (proj1 (Test_clone_failure _ _ _ H1 H2)).
Defined.

Lemma Execute_help_witness :
  help_redefined [] = false /\
  parseArgs no_ParseDuration csv_one [] (os_Args (good_world ["prog"; "--help"] []))
    (mkPstate NewDefaultTester false false) = (mkPstate NewDefaultTester true false, None) /\
  phelp (mkPstate NewDefaultTester true false) = true /\
  Execute no_ParseDuration csv_one [] ContinueOnError (good_world ["prog"; "--help"] [])
    (mkSt NewDefaultTester []) = (mkSt NewDefaultTester [EvPrintDefaults], Ok tt) /\
  parseArgs no_ParseDuration csv_one []
    (os_Args (good_world ["prog"; "--help"; "--ginkgo-args"] []))
    (mkPstate NewDefaultTester false false)
  = (mkPstate NewDefaultTester true false, Some (NeedsArgument "--ginkgo-args")) /\
  Execute no_ParseDuration csv_one [] ExitOnError (good_world ["prog"; "--help"; "--ginkgo-args"] [])
    (mkSt NewDefaultTester [])
  = (mkSt NewDefaultTester [EvPrintError (NeedsArgument "--ginkgo-args"); EvExit 2], Err (ErrExit 2)).
Proof.
  assert (H1 : help_redefined [] = false) by reflexivity.
  assert (H2 : parseArgs no_ParseDuration csv_one [] (os_Args (good_world ["prog"; "--help"] []))
    (mkPstate NewDefaultTester false false) = (mkPstate NewDefaultTester true false, None))
    by (vm_compute; reflexivity).
  assert (H3 : phelp (mkPstate NewDefaultTester true false) = true) by reflexivity.
  assert (H4 : parseArgs no_ParseDuration csv_one []
    (os_Args (good_world ["prog"; "--help"; "--ginkgo-args"] []))
    (mkPstate NewDefaultTester false false)
    = (mkPstate NewDefaultTester true false, Some (NeedsArgument "--ginkgo-args")))
    by (vm_compute; reflexivity).
  split; [exact H1|]. split; [exact H2|]. split; [exact H3|]. split.
  - exact (proj1 (Execute_help _ _ _ ContinueOnError _ _ [] H1) _ H2 H3).
  - split; [exact H4|].
    exact (proj2 (Execute_help _ _ _ ExitOnError _ _ [] H1) _ _ H4).
Defined.

(** C6: --help is on the command line, but another flag lacks its value:
    parsing fails and the run fails (an error, or exit status 2). *)
Lemma Execute_help_counterexample :
  snd (run (Execute no_ParseDuration csv_one [] ContinueOnError
              (good_world ["prog"; "--help"; "--ginkgo-args"] [])) NewDefaultTester)
  = Err (ErrParseFlags (NeedsArgument "--ginkgo-args")) /\
  run (Execute no_ParseDuration csv_one [] ExitOnError
         (good_world ["prog"; "--help"; "--ginkgo-args"] [])) NewDefaultTester
  = (mkSt NewDefaultTester [EvPrintError (NeedsArgument "--ginkgo-args"); EvExit 2],
     Err (ErrExit 2)).
Proof. split; vm_compute; reflexivity. Defined.

(** C7: --parallel=0 and --flake-attempts=-2 are accepted and the run
    succeeds, launching ginkgo with --nodes=0. *)
Lemma Execute_bounds_counterexample :
  let w := world_kc ["prog"; "--parallel=0"; "--flake-attempts=-2"] in
  snd (run (Execute no_ParseDuration csv_one [] ContinueOnError w) NewDefaultTester) = Ok tt /\
  Parallel (tester (fst (run (Execute no_ParseDuration csv_one [] ContinueOnError w) NewDefaultTester)))
    = 0 /\
  FlakeAttempts (tester (fst (run (Execute no_ParseDuration csv_one [] ContinueOnError w)
                                   NewDefaultTester))) = -2 /\
  In (EvRun "" ("--nodes=0" :: default_tail) [])
     (trace (fst (run (Execute no_ParseDuration csv_one [] ContinueOnError w) NewDefaultTester))).
Proof. intro w. split; [vm_compute; reflexivity|]. split; [vm_compute; reflexivity|].
  split; [vm_compute; reflexivity | find_in]. Defined.

Lemma Execute_config_frame_witness :
  let w := world_kc ["prog"; "--parallel=3"] in
  let ps := mkPstate (set_Parallel 3 NewDefaultTester) false false in
  help_redefined [] = false /\
  parseArgs no_ParseDuration csv_one [] (os_Args w) (mkPstate NewDefaultTester false false)
    = (ps, None) /\
  let t' := tester (fst (Execute no_ParseDuration csv_one [] ContinueOnError w
                            (mkSt NewDefaultTester []))) in
  t' = set_kubeconfigPath (kubeconfigPath t') (set_runDir (runDir t') (ptester ps)).
Proof.
  intros w ps.
  assert (H1 : help_redefined [] = false) by reflexivity.
  assert (H2 : parseArgs no_ParseDuration csv_one [] (os_Args w) (mkPstate NewDefaultTester false false)
    = (ps, None)) by (vm_compute; reflexivity).
  exact (conj H1 (conj H2 (Execute_config_frame _ _ _ ContinueOnError _ _ [] _ H1 H2))).
Defined.

(** C8: parsing leaves the defaults as they are, yet after the run runDir
    and kubeconfigPath hold new values. *)
Lemma Execute_config_frame_counterexample :
  let w := good_world ["prog"] [("KUBETEST2_RUN_DIR", "/r"); ("KUBECONFIG", "/kc")] in
  parseArgs no_ParseDuration csv_one [] (os_Args w) (mkPstate NewDefaultTester false false)
    = (mkPstate NewDefaultTester false false, None) /\
  runDir NewDefaultTester = "" /\ kubeconfigPath NewDefaultTester = "" /\
  runDir (tester (fst (run (Execute no_ParseDuration csv_one [] ContinueOnError w) NewDefaultTester)))
    = "/r" /\
  kubeconfigPath (tester (fst (run (Execute no_ParseDuration csv_one [] ContinueOnError w)
                                    NewDefaultTester))) = "/kc".
Proof. intro w. repeat split; vm_compute; reflexivity. Defined.

Lemma Execute_empty_binary_paths_witness :
  In (EvRun "" ("--nodes=1" :: default_tail) [])
     (trace (fst (run (Execute no_ParseDuration csv_one [] ContinueOnError (world_kc ["prog"]))
                      NewDefaultTester))) /\
  "" = "" /\
  (exists pre p post, ("--nodes=1" :: default_tail)
                      = app pre (app ["--nodes=" ++ Itoa p; ""; "--"] post)) /\
  e2eTestPath (tester (fst (run (Execute no_ParseDuration csv_one [] ContinueOnError
                                   (world_kc ["prog"])) NewDefaultTester))) = "" /\
  ginkgoPath (tester (fst (run (Execute no_ParseDuration csv_one [] ContinueOnError
                                  (world_kc ["prog"])) NewDefaultTester))) = "".
Proof.
  assert (H : In (EvRun "" ("--nodes=1" :: default_tail) [])
     (trace (fst (run (Execute no_ParseDuration csv_one [] ContinueOnError (world_kc ["prog"]))
                      NewDefaultTester)))) by find_in.
  exact (conj H (Execute_empty_binary_paths _ _ _ _ _ _ _ _ H)).
Defined.

Lemma Test_metadata_failure_witness :
  WriteVersionToMetadata metadata_fails_world (GitTag metadata_fails_world) = Some "no artifacts" /\
  run (Test metadata_fails_world) NewDefaultTester
  = (mkSt NewDefaultTester [EvWriteVersionToMetadata "v0"], Err (ErrMetadata "no artifacts")).
Proof.
  assert (H : WriteVersionToMetadata metadata_fails_world (GitTag metadata_fails_world)
              = Some "no artifacts") by reflexivity.
  exact (conj H (Test_metadata_failure _ _ _ H)).
Defined.

Lemma Test_configured_kubeconfig_witness :
  let t := set_kubeconfigPath "/mine" NewDefaultTester in
  kubeconfigPath t <> "" /\
  In (EvRun "" ("--nodes=1" :: ""%string :: "--" :: "--kubeconfig=/mine" :: tl (tl (tl default_tail))) [])
     (trace (fst (run (Test (good_world ["prog"] [])) t))) /\
  ~ In (EvLookupEnv "KUBECONFIG") (trace (fst (run (Test (good_world ["prog"] [])) t))) /\
  tester (fst (run (Test (good_world ["prog"] [])) t)) = t /\
  (forall name args env, In (EvRun name args env) (trace (fst (run (Test (good_world ["prog"] [])) t))) ->
   In ("--kubeconfig=" ++ kubeconfigPath t) args).
Proof.
  intro t.
  assert (H : kubeconfigPath t <> "") by discriminate.
  split; [exact H|]. split; [find_in|].
  exact (Test_configured_kubeconfig _ _ H).
Defined.

Lemma Test_kubeconfig_sticks_witness :
  let w := world_kc ["prog"] in
  let w2 := good_world ["prog"] [] in
  let t1 := tester (fst (run (Test w) NewDefaultTester)) in
  kubeconfigPath t1 = "/kc" /\
  ~ In (EvLookupEnv "KUBECONFIG") (trace (fst (run (Test w2) t1))) /\
  (forall name args env, In (EvRun name args env) (trace (fst (run (Test w2) t1))) ->
   In ("--kubeconfig=" ++ "/kc") args).
Proof.
  apply (Test_kubeconfig_sticks (world_kc ["prog"]) (good_world ["prog"] []) NewDefaultTester "/kc");
    [reflexivity | reflexivity | reflexivity | reflexivity | discriminate].
Defined.

Lemma Test_empty_KUBECONFIG_witness :
  let w := good_world ["prog"] [("KUBECONFIG", "")] in
  snd (run (Test w) NewDefaultTester) = Ok tt /\
  snd (run (Test w) NewDefaultTester) <> Err ErrKubeconfigMissing /\
  kubeconfigPath (tester (fst (run (Test w) NewDefaultTester))) = "" /\
  (forall name args env, In (EvRun name args env) (trace (fst (run (Test w) NewDefaultTester))) ->
   In "--kubeconfig=" args).
Proof.
  intro w. split; [vm_compute; reflexivity|].
  apply Test_empty_KUBECONFIG; reflexivity.
Defined.

Lemma Test_run_result_witness :
  let w := mkWorld ["prog"] (env_of [("KUBECONFIG", "/kc")]) (Ok "/cwd") "v0" (fun _ => None)
             (fun _ _ => None) "/artifacts" (fun _ _ _ => Some "exit status 1") in
  In (EvRun "" ("--nodes=1" :: default_tail) []) (trace (fst (run (Test w) NewDefaultTester))) /\
  "" = ginkgoPath NewDefaultTester /\
  snd (run (Test w) NewDefaultTester) = Err (ErrTestRun "exit status 1").
Proof.
  intro w.
  assert (H : In (EvRun "" ("--nodes=1" :: default_tail) []) (trace (fst (run (Test w) NewDefaultTester))))
    by find_in.
  split; [exact H|].
  exact (Test_run_result _ _ _ _ _ H).
Defined.

Lemma Execute_clone_target_witness :
  let w := world_kc ["prog"; "--repo=https://x"] in
  In (EvPlainClone "/cwd" "https://x")
     (trace (fst (run (Execute no_ParseDuration csv_one [] ContinueOnError w) NewDefaultTester))) /\
  exists ps, parseArgs no_ParseDuration csv_one [] (os_Args w) (mkPstate NewDefaultTester false false)
             = (ps, None) /\
    phelp ps = false /\ "https://x" = Repo (ptester ps) /\
    (LookupEnv w "KUBETEST2_RUN_DIR" = Some "/cwd" \/
     (LookupEnv w "KUBETEST2_RUN_DIR" = None /\ Getwd w = Ok "/cwd")).
Proof.
  intro w.
  assert (H : In (EvPlainClone "/cwd" "https://x")
     (trace (fst (run (Execute no_ParseDuration csv_one [] ContinueOnError w) NewDefaultTester))))
    by find_in.
  exact (conj H (Execute_clone_target _ _ _ _ _ _ _ _ H)).
Defined.

Lemma Execute_launch_sequence_witness :
  let w := world_kc ["prog"] in
  In (EvRun "" ("--nodes=1" :: default_tail) [])
     (trace (fst (run (Execute no_ParseDuration csv_one [] ContinueOnError w) NewDefaultTester))) /\
  exists pre path url mid,
    (pre = [EvLookupEnv "KUBETEST2_RUN_DIR"] \/ pre = [EvLookupEnv "KUBETEST2_RUN_DIR"; EvGetwd]) /\
    (mid = [] \/ mid = [EvLookupEnv "KUBECONFIG"]) /\
    trace (fst (run (Execute no_ParseDuration csv_one [] ContinueOnError w) NewDefaultTester))
    = (pre ++ [EvWriteVersionToMetadata (GitTag w); EvPlainClone path url] ++ mid
       ++ [EvInfoLog "" ("--nodes=1" :: default_tail); EvRun "" ("--nodes=1" :: default_tail) []])%list.
Proof.
  intro w.
  assert (H : In (EvRun "" ("--nodes=1" :: default_tail) [])
     (trace (fst (run (Execute no_ParseDuration csv_one [] ContinueOnError w) NewDefaultTester))))
    by find_in.
  exact (conj H (Execute_launch_sequence _ _ _ _ _ _ _ _ _ H)).
Defined.

Lemma Execute_parse_failure_witness :
  let w := good_world ["prog"; "--parallel=2"; "--nope"] [] in
  let ps := mkPstate (set_Parallel 2 NewDefaultTester) false false in
  existsb clashes_with_help [] = false /\
  parseArgs no_ParseDuration csv_one [] (os_Args w) (mkPstate NewDefaultTester false false)
    = (ps, Some (UnknownFlag "nope")) /\
  tester (fst (run (Execute no_ParseDuration csv_one [] ExitOnError w) NewDefaultTester)) = ptester ps /\
  trace (fst (run (Execute no_ParseDuration csv_one [] ExitOnError w) NewDefaultTester))
    = [EvPrintError (UnknownFlag "nope"); EvExit 2] /\
  snd (run (Execute no_ParseDuration csv_one [] ExitOnError w) NewDefaultTester) = Err (ErrExit 2).
Proof.
  intros w ps.
  assert (H1 : existsb clashes_with_help [] = false) by reflexivity.
  assert (H2 : parseArgs no_ParseDuration csv_one [] (os_Args w) (mkPstate NewDefaultTester false false)
    = (ps, Some (UnknownFlag "nope"))) by (vm_compute; reflexivity).
  exact (conj H1 (conj H2 (Execute_parse_failure _ _ _ ExitOnError _ _ _ _ H1 H2))).
Defined.

Lemma Execute_help_flag_witness :
  let w := good_world ["prog"; "-h"] [] in
  existsb clashes_with_help [] = false /\ os_Args w = ["prog"; "-h"] /\ first_not_dash "prog" /\
  run (Execute no_ParseDuration csv_one [] ContinueOnError w) NewDefaultTester
  = (mkSt NewDefaultTester [EvPrintDefaults], Ok tt).
Proof.
  intro w.
  assert (H1 : existsb clashes_with_help [] = false) by reflexivity.
  assert (H2 : os_Args w = ["prog"; "-h"]) by reflexivity.
  assert (H3 : first_not_dash "prog") by discriminate.
  exact (conj H1 (conj H2 (conj H3
    (Execute_help_flag _ _ _ _ _ _ "prog" "-h" H1 H2 H3 (or_introl eq_refl))))).
Defined.

Lemma Execute_defaults_witness :
  let w := world_kc ["prog"] in
  os_Args w = ["prog"] /\ first_not_dash "prog" /\
  In (EvRun "" ("--nodes=1" :: default_tail) [])
     (trace (fst (run (Execute no_ParseDuration csv_one [] ContinueOnError w) NewDefaultTester))) /\
  (forall path url,
     In (EvPlainClone path url)
        (trace (fst (run (Execute no_ParseDuration csv_one [] ContinueOnError w) NewDefaultTester))) ->
     url = "") /\
  (forall name args env,
     In (EvRun name args env)
        (trace (fst (run (Execute no_ParseDuration csv_one [] ContinueOnError w) NewDefaultTester))) ->
     name = "" /\
     exists kc, args = ["--nodes=1"; ""; "--"; "--kubeconfig=" ++ kc; "--ginkgo.skip=";
                        "--ginkgo.focus="; "--report-dir=" ++ artifacts_BaseDir w;
                        "--ginkgo.timeout=24h0m0s"]).
Proof.
  intro w.
  assert (H1 : os_Args w = ["prog"]) by reflexivity.
  assert (H2 : first_not_dash "prog") by discriminate.
  split; [exact H1|]. split; [exact H2|]. split; [find_in|].
  exact (Execute_defaults _ _ _ _ _ _ H1 H2).
Defined.

Lemma parseArgs_separate_value_witness :
  In "parallel" ["flake-attempts"; "ginkgo-args"; "parallel"; "skip-regex"; "focus-regex";
                 "timeout"; "env"; "repo"] /\
  parseArgs no_ParseDuration csv_one [] ["--parallel"; "3"] (mkPstate NewDefaultTester false false)
  = (mkPstate (set_Parallel 3 NewDefaultTester) false false, None) /\
  parseArgs no_ParseDuration csv_one [] (("--" ++ "parallel") :: "3" :: []) (mkPstate NewDefaultTester false false)
  = parseArgs no_ParseDuration csv_one [] (("--" ++ "parallel" ++ "=" ++ "3") :: [])
      (mkPstate NewDefaultTester false false).
Proof.
  assert (H : In "parallel" ["flake-attempts"; "ginkgo-args"; "parallel"; "skip-regex"; "focus-regex";
                             "timeout"; "env"; "repo"]) by (simpl; tauto).
  split; [exact H|]. split; [vm_compute; reflexivity|].
  exact (parseArgs_separate_value _ _ _ _ "3" [] _ H).
Defined.

Lemma parseArgs_env_accumulates_witness :
  ["a"; "b"] <> [] /\ map csv_one ["a"; "b"] = map Some [["a"]; ["b"]] /\
  parseArgs no_ParseDuration csv_one [] (map (fun v => "--env=" ++ v) ["a"; "b"])
    (mkPstate (set_Env ["old"] NewDefaultTester) false false)
  = (mkPstate (set_Env ((if false then ["old"] else []) ++ concat [["a"]; ["b"]])
                       (set_Env ["old"] NewDefaultTester)) false true, None).
Proof.
  assert (H1 : ["a"; "b"] <> []) by discriminate.
  assert (H2 : map csv_one ["a"; "b"] = map Some [["a"]; ["b"]]) by reflexivity.
  exact (conj H1 (conj H2 (parseArgs_env_accumulates no_ParseDuration csv_one [] _ _
                             (mkPstate (set_Env ["old"] NewDefaultTester) false false) H1 H2))).
Defined.

Lemma parseArgs_ginkgo_args_last_witness :
  ["--foo"; "--bar"] <> [] /\
  parseArgs no_ParseDuration csv_one [] (map (fun v => "--ginkgo-args=" ++ v) ["--foo"; "--bar"])
    (mkPstate NewDefaultTester false false)
  = (with_tester (mkPstate NewDefaultTester false false) (set_GinkgoArgs (last ["--foo"; "--bar"] "")), None).
Proof.
  assert (H : ["--foo"; "--bar"] <> []) by discriminate.
  exact (conj H (parseArgs_ginkgo_args_last _ _ _ _ _ H)).
Defined.

Lemma Test_timeout_hours_witness :
  let t := set_Timeout (2 * Hour) NewDefaultTester in
  0 < 2 /\ Timeout t = 2 * Hour /\
  In (EvRun "" ("--nodes=1" :: removelast default_tail ++ ["--ginkgo.timeout=2h0m0s"])%list [])
     (trace (fst (run (Test (world_kc ["prog"])) t))) /\
  last ("--nodes=1" :: removelast default_tail ++ ["--ginkgo.timeout=2h0m0s"])%list ""
  = "--ginkgo.timeout=" ++ Itoa 2 ++ "h0m0s".
Proof.
  intro t.
  assert (H1 : 0 < 2) by lia.
  assert (H2 : Timeout t = 2 * Hour) by reflexivity.
  assert (H3 : In (EvRun "" ("--nodes=1" :: removelast default_tail ++ ["--ginkgo.timeout=2h0m0s"])%list [])
     (trace (fst (run (Test (world_kc ["prog"])) t)))) by find_in.
  exact (conj H1 (conj H2 (conj H3 (Test_timeout_hours _ _ _ _ _ _ H1 H2 H3)))).
Defined.

Lemma parseArgs_parallel_Itoa_witness :
  - 2 ^ 63 <= -7 < 2 ^ 63 /\
  parseArgs no_ParseDuration csv_one [] (("--parallel=" ++ Itoa (-7)) :: [])
    (mkPstate NewDefaultTester false false)
  = parseArgs no_ParseDuration csv_one [] []
      (with_tester (mkPstate NewDefaultTester false false) (set_Parallel (-7))).
Proof.
  assert (H : - 2 ^ 63 <= -7 < 2 ^ 63) by lia.
  exact (conj H (parseArgs_parallel_Itoa _ _ _ _ [] _ H)).
Defined.

Lemma Test_blank_ginkgo_args_witness :
  let t := set_GinkgoArgs "  " NewDefaultTester in
  forallb is_splitChar (list_ascii_of_string (GinkgoArgs t)) = true /\
  In (EvRun "" ("--nodes=1" :: default_tail) []) (trace (fst (run (Test (world_kc ["prog"])) t))) /\
  hd_error ("--nodes=1" :: default_tail) = Some ("--nodes=" ++ Itoa (Parallel t)).
Proof.
  intro t.
  assert (H1 : forallb is_splitChar (list_ascii_of_string (GinkgoArgs t)) = true) by reflexivity.
  assert (H2 : In (EvRun "" ("--nodes=1" :: default_tail) []) (trace (fst (run (Test (world_kc ["prog"])) t))))
    by find_in.
  exact (conj H1 (conj H2 (Test_blank_ginkgo_args _ _ _ _ _ H1 H2))).
Defined.
